(** * DCGAN assignment ([assignment.py]): training loop, checkpoints, sampling

    A shallow embedding of [assignment.py].  Python integers are [Z];
    tensors of floating-point numbers are lists of rationals ([Q]) where the
    program only does rational arithmetic on them, and lists of reals where
    the hyperbolic tangent is needed.  The networks' weights, the gradient
    computations, the random number generator and the Inception distance
    are operations of the framework and are kept abstract (class [Backend]).
    Device placement and warnings are not modelled. *)

From Stdlib Require Import ZArith QArith Qminmax Qround List String Bool Lia Lqa.
From Stdlib Require Import DecimalString.
From Stdlib Require Import Reals Lra.
Import ListNotations.

Set Implicit Arguments.

Local Open Scope Z_scope.

(** ** Command line arguments (the module-level [args]) *)

Record Args := {
  img_dir : string;
  out_dir : string;
  mode : string;
  restore_checkpoint : bool;
  z_dim : Z;
  batch_size : Z;
  num_data_threads : Z;
  num_epochs : Z;
  num_gen_updates : Z;
  log_every : Z;
  save_every : Z;
  device : string;
  scale_model : Z
}.

(** The defaults of the argument parser on a machine without a GPU (the
    learning rate and beta1 are floating-point settings of the optimizers
    and live in the backend). *)
Definition default_args : Args := {|
  img_dir := "./data/celebA";
  out_dir := "./output";
  mode := "train";
  restore_checkpoint := false;
  z_dim := 100;
  batch_size := 128;
  num_data_threads := 2;
  num_epochs := 10;
  num_gen_updates := 2;
  log_every := 7;
  save_every := 500;
  device := "CPU:0";
  scale_model := 1
|}.

(** A small configuration in test mode, without the restore flag. *)
Definition sampling_args : Args := {|
  img_dir := "./data/celebA";
  out_dir := "out";
  mode := "test";
  restore_checkpoint := false;
  z_dim := 1;
  batch_size := 2;
  num_data_threads := 2;
  num_epochs := 1;
  num_gen_updates := 2;
  log_every := 7;
  save_every := 500;
  device := "CPU:0";
  scale_model := 1
|}.

(** ** Floating-point scalars that the training loop averages

    A score is a finite number or a non-finite one (infinity, NaN).  The
    finite part is a rational; rounding and overflow are not modelled, so
    sums of several scores are exact here. *)

Inductive tfloat :=
| Finite (q : Q)
| NonFinite.

Definition is_finite (x : tfloat) : Prop :=
  match x with Finite _ => True | NonFinite => False end.

Definition tf_add (x y : tfloat) : tfloat :=
  match x, y with
  | Finite a, Finite b => Finite (a + b)
  | _, _ => NonFinite
  end.

(** Division of a score by a non-zero Python integer. *)
Definition tf_div_int (x : tfloat) (n : Z) : tfloat :=
  match x with
  | Finite a => Finite (a / inject_Z n)
  | NonFinite => NonFinite
  end.

(** ** Images *)

(** An image is its pixels in row-major order; a batch is a list of images. *)
Definition image := list Q.
Definition image_batch := list image.

(** ** Python exceptions *)

(** Where a [ZeroDivisionError] can come from in [train]. *)
Inductive division_site :=
| at_num_gen_updates   (* [iteration % args.num_gen_updates] *)
| at_save_every        (* [iteration % args.save_every] *)
| at_mean.             (* [cumulative/eval_count] *)

Inductive exn :=
| ZeroDivisionError (site : division_site)
| IndexError
| AttributeError
| ValueError
| RuntimeError.

(** ** The framework operations the program calls *)

Class Backend := {
  (** the generator object: trainable variables and optimizer slots *)
  Gen : Type;
  (** the discriminator object *)
  Disc : Type;
  Rng : Type;
  Latent : Type;
  Grads_G : Type;
  Grads_D : Type;
  (** [Generator_Model()] and [Discriminator_Model()] *)
  fresh_generator : Gen;
  fresh_discriminator : Disc;
  (** [tf.random.uniform([batch_size, z_dim], -1, 1)] *)
  random_uniform : Z -> Z -> Rng -> Latent * Rng;
  (** [generator(noise)] *)
  generator_call : Gen -> Latent -> image_batch;
  (** [gen_tape.gradient(gen_loss, generator.trainable_variables)]: the
      tape recorded the forward pass through both networks on the noise *)
  gen_tape_gradient : Gen -> Disc -> Latent -> Grads_G;
  (** [disc_tape.gradient(disc_loss, discriminator.trainable_variables)]:
      the tape also recorded the discriminator on the real batch *)
  disc_tape_gradient : Gen -> Disc -> Latent -> image_batch -> Grads_D;
  (** [optimizer.apply_gradients(zip(grads, trainable_variables))] *)
  gen_apply_gradients : Gen -> Grads_G -> Gen;
  disc_apply_gradients : Disc -> Grads_D -> Disc;
  (** [fid_function(real_image_batch, generated_image_batch)] *)
  fid_function : image_batch -> image_batch -> tfloat;
  (** what entering [with tf.device(name)] raises, if anything: a name
      the framework cannot parse raises [ValueError] *)
  tf_device : string -> option exn
}.

(** ** Checkpoints *)

Module CheckpointManager.

(** Modelled from the spec: [tf.train.Checkpoint] and
    [tf.train.CheckpointManager] are not part of the repository.  Following
    the specification's section 4.5, [save] writes a new checkpoint tagged with
    a monotonically increasing identifier and then deletes the oldest
    checkpoints beyond the retention bound; [restore_latest] loads the most
    recent checkpoint if one exists and reports [None] otherwise.  The
    directory lists the checkpoints oldest first. *)
Record t (State : Type) := {
  checkpoints : list (Z * State);
  next_id : Z;
  max_to_keep : nat
}.

(** The last [k] elements of a list. *)
Definition keep_last {A : Type} (k : nat) (l : list A) : list A :=
  skipn (List.length l - k)%nat l.

Section Operations.
Context {State : Type}.

(** Modelled from the spec: the manager's [save]. *)
Definition save (s : State) (m : t State) : t State :=
  {| checkpoints :=
       keep_last (max_to_keep m) (checkpoints m ++ [(next_id m, s)]);
     next_id := next_id m + 1;
     max_to_keep := max_to_keep m |}.

(** Modelled from the spec: the manager's [latest_checkpoint]. *)
Definition latest_checkpoint (m : t State) : option (Z * State) :=
  last (map Some (checkpoints m)) None.

(** Modelled from the spec: [restore_latest() -> state | NotFound]. *)
Definition restore_latest (m : t State) : option State :=
  option_map snd (latest_checkpoint m).

(** A run of [save] calls, first element saved first. *)
Definition save_all (l : list State) (m : t State) : t State :=
  fold_left (fun acc s => save s acc) l m.

End Operations.

End CheckpointManager.

(** ** Python outcomes and the state of the process *)

Inductive outcome (A : Type) :=
| Returns (a : A)
| Raises (e : exn).

Arguments Returns {A} a.
Arguments Raises {A} e.

(** What an observer of the process sees, in the order it happens. *)
Inductive event :=
| GenUpdate (iteration : Z)        (* [generator.optimizer.apply_gradients] *)
| DiscUpdate (iteration : Z)       (* [discriminator.optimizer.apply_gradients] *)
| DiscTapeDeleted (iteration : Z)  (* [del disc_tape] *)
| ManagerSave (id : Z)             (* [manager.save()] *)
| FidEvaluated (iteration : Z)     (* [fid_function(batch, gen_output)] *)
| Makedirs (path : string)         (* [os.makedirs(args.out_dir)] *)
| CheckpointRestore (found : bool) (* [checkpoint.restore(...)] *)
| EpochStarted (epoch : Z)
| Imwrite (path : string) (pixels : list Z).

Section Program.
Context {B : Backend}.

(** A checkpoint holds both networks (with their optimizers). *)
Definition snapshot : Type := Gen * Disc.

(** The mutable objects of the process.  They are mutated in place, so
    they keep their value when an exception is raised. *)
Record world := {
  generator : Gen;
  discriminator : Disc;
  rng : Rng;
  manager : CheckpointManager.t snapshot;
  out_dir_exists : bool;
  trace : list event
}.

Definition M (A : Type) : Type := world -> world * outcome A.

Definition ret {A} (a : A) : M A := fun w => (w, Returns a).

Definition raise {A} (e : exn) : M A := fun w => (w, Raises e).

Definition bind {A C} (m : M A) (k : A -> M C) : M C :=
  fun w =>
    match m w with
    | (w', Returns a) => k a w'
    | (w', Raises e) => (w', Raises e)
    end.

Notation "x <- m ;; k" := (bind m (fun x => k))
  (at level 61, m at next level, right associativity).
Notation "m ;;; k" := (bind m (fun _ => k))
  (at level 61, right associativity).

Definition emit (e : event) : M unit :=
  fun w =>
    ({| generator := generator w; discriminator := discriminator w;
        rng := rng w; manager := manager w;
        out_dir_exists := out_dir_exists w;
        trace := trace w ++ [e] |}, Returns tt).

Definition set_generator (g : Gen) : M unit :=
  fun w =>
    ({| generator := g; discriminator := discriminator w;
        rng := rng w; manager := manager w;
        out_dir_exists := out_dir_exists w;
        trace := trace w |}, Returns tt).

Definition set_discriminator (d : Disc) : M unit :=
  fun w =>
    ({| generator := generator w; discriminator := d;
        rng := rng w; manager := manager w;
        out_dir_exists := out_dir_exists w;
        trace := trace w |}, Returns tt).

Definition get_generator : M Gen := fun w => (w, Returns (generator w)).

Definition get_discriminator : M Disc :=
  fun w => (w, Returns (discriminator w)).

(** [tf.Variable(tf.random.uniform([args.batch_size, args.z_dim], -1, 1))] *)
Definition draw_noise (args : Args) : M Latent :=
  fun w =>
    let '(noise, r) := random_uniform (batch_size args) (z_dim args) (rng w) in
    ({| generator := generator w; discriminator := discriminator w;
        rng := r; manager := manager w;
        out_dir_exists := out_dir_exists w;
        trace := trace w |}, Returns noise).

(** [a % b] on Python integers: the remainder has the sign of [b]. *)
Definition py_mod (a b : Z) (site : division_site) : M Z :=
  if b =? 0 then raise (ZeroDivisionError site) else ret (a mod b).

(** [manager.save()]: the checkpoint object tracks both networks. *)
Definition manager_save : M unit :=
  fun w =>
    ({| generator := generator w; discriminator := discriminator w;
        rng := rng w;
        manager :=
          CheckpointManager.save (generator w, discriminator w) (manager w);
        out_dir_exists := out_dir_exists w;
        trace := trace w ++ [ManagerSave (CheckpointManager.next_id (manager w))] |},
     Returns tt).

(** [checkpoint.restore(manager.latest_checkpoint)] *)
Definition checkpoint_restore : M unit :=
  fun w =>
    match CheckpointManager.restore_latest (manager w) with
    | Some (g, d) =>
        ({| generator := g; discriminator := d;
            rng := rng w; manager := manager w;
            out_dir_exists := out_dir_exists w;
            trace := trace w ++ [CheckpointRestore true] |}, Returns tt)
    | None =>
        ({| generator := generator w; discriminator := discriminator w;
            rng := rng w; manager := manager w;
            out_dir_exists := out_dir_exists w;
            trace := trace w ++ [CheckpointRestore false] |}, Returns tt)
    end.

(** [os.path.exists(args.out_dir)] *)
Definition path_exists : M bool := fun w => (w, Returns (out_dir_exists w)).

(** [os.makedirs(args.out_dir)] *)
Definition makedirs (path : string) : M unit :=
  fun w =>
    ({| generator := generator w; discriminator := discriminator w;
        rng := rng w; manager := manager w;
        out_dir_exists := true;
        trace := trace w ++ [Makedirs path] |}, Returns tt).

(** A [for] loop over a list. *)
Fixpoint for_each {A} (l : list A) (body : A -> M unit) : M unit :=
  match l with
  | [] => ret tt
  | x :: rest => body x ;;; for_each rest body
  end.

(** [range(0, n)] *)
Definition range (n : Z) : list Z := map Z.of_nat (seq 0 (Z.to_nat n)).

(** ** [train]: one epoch *)

(** The body of the loop [for iteration, batch in enumerate(dataset_iterator)],
    with the local variables [cumulative] and [eval_count] passed along. *)
Definition train_body (args : Args) (iteration : Z) (batch : image_batch)
    (cumulative : tfloat) (eval_count : Z) : M (tfloat * Z) :=
  noise <- draw_noise args ;;
  g <- get_generator ;;
  d <- get_discriminator ;;
  let gen_output := generator_call g noise in
  let gen_grads := gen_tape_gradient g d noise in
  set_generator (gen_apply_gradients g gen_grads) ;;;
  emit (GenUpdate iteration) ;;;
  r <- py_mod iteration (num_gen_updates args) at_num_gen_updates ;;
  (if r =? 0 then
     let disc_grads := disc_tape_gradient g d noise batch in
     set_discriminator (disc_apply_gradients d disc_grads) ;;;
     emit (DiscUpdate iteration)
   else
     emit (DiscTapeDeleted iteration)) ;;;
  s <- py_mod iteration (save_every args) at_save_every ;;
  (if s =? 0 then manager_save else ret tt) ;;;
  if iteration mod 500 =? 0 then
    let fid_ := fid_function batch gen_output in
    emit (FidEvaluated iteration) ;;;
    ret (tf_add cumulative fid_, eval_count + 1)
  else
    ret (cumulative, eval_count).

(** The loop itself; [batches] is what the data source yields this epoch. *)
Fixpoint train_loop (args : Args) (iteration : Z) (batches : list image_batch)
    (cumulative : tfloat) (eval_count : Z) : M (tfloat * Z) :=
  match batches with
  | [] => ret (cumulative, eval_count)
  | batch :: rest =>
      acc <- train_body args iteration batch cumulative eval_count ;;
      train_loop args (iteration + 1) rest (fst acc) (snd acc)
  end.

Definition train (args : Args) (batches : list image_batch) : M tfloat :=
  acc <- train_loop args 0 batches (Finite 0) 0 ;;
  if snd acc =? 0 then raise (ZeroDivisionError at_mean)
  else ret (tf_div_int (fst acc) (snd acc)).

(** ** [test]: sampling *)

(** [((img / 2) - 0.5) * 255] on one pixel. *)
Definition rescale (x : Q) : Q := (((x / 2) - (1 # 2)) * 255)%Q.

(** [str(i)] for a non-negative index. *)
Definition str (i : Z) : string := NilEmpty.string_of_uint (Nat.to_uint (Z.to_nat i)).

(** [img.astype(np.uint8)]: [img] is the [tf.Tensor] that the generator's
    [call] returned, rescaled; a tensor has no attribute [astype] (that is a
    method of NumPy arrays), so the lookup raises. *)
Definition tensor_astype_uint8 (img : image_batch) : M (list (list Z)) :=
  raise AttributeError.

Definition test (args : Args) : M unit :=
  noise <- draw_noise args ;;
  g <- get_generator ;;
  let img := generator_call g noise in
  let img := map (map rescale) img in
  img <- tensor_astype_uint8 img ;;
  for_each (range (batch_size args)) (fun i =>
    match nth_error img (Z.to_nat i) with
    | Some img_i =>
        let s := (out_dir args ++ "/" ++ str i ++ ".png")%string in
        emit (Imwrite s img_i)
    | None => raise IndexError
    end).

(** ** [main] *)

(** What the process finds when it starts: the checkpoint directory, the
    output directory and the random seed. *)
Record start := {
  saved : list (Z * snapshot);
  counter : Z;
  out_dir_present : bool;
  seed : Rng
}.

(** The objects [main] constructs before it restores anything.  The calls
    that construct them ([load_image_batch], [Generator_Model()],
    [Discriminator_Model()], the checkpoint and its manager) are taken to
    have returned; a run in which one of them raises ends before
    [os.makedirs] and is not a run of [main] below. *)
Definition boot (s : start) : world :=
  {| generator := fresh_generator;
     discriminator := fresh_discriminator;
     rng := seed s;
     manager := {| CheckpointManager.checkpoints := saved s;
                   CheckpointManager.next_id := counter s;
                   CheckpointManager.max_to_keep := 3 |};
     out_dir_exists := out_dir_present s;
     trace := [] |}.

(** The restore step of [main]. *)
Definition main_restore (args : Args) : M unit :=
  if restore_checkpoint args || (mode args =? "test")%string
  then checkpoint_restore
  else ret tt.

(** [try: body except RuntimeError as e: print(e)]: a [RuntimeError] ends
    the body and [main] goes on; any other exception propagates. *)
Definition try_except_RuntimeError (body : M unit) : M unit :=
  fun w =>
    match body w with
    | (w', Raises RuntimeError) => (w', Returns tt)
    | (w', o) => (w', o)
    end.

(** Entering [with tf.device(name)]. *)
Definition enter_device (name : string) : M unit :=
  match tf_device name with
  | Some e => raise e
  | None => ret tt
  end.

(** The [try] statement of [main]. *)
Definition main_run (args : Args) (dataset_iterator : Z -> list image_batch)
    : M unit :=
  try_except_RuntimeError
    (enter_device ("/device:" ++ device args)%string ;;;
     (if (mode args =? "train")%string then
        for_each (range (num_epochs args)) (fun epoch =>
          emit (EpochStarted epoch) ;;;
          avg_fid <- train args (dataset_iterator epoch) ;;
          manager_save)
      else ret tt) ;;;
     (if (mode args =? "test")%string then test args else ret tt)).

(** What [main] does before the [try] statement, once the data source,
    the models and the manager are constructed: the output directory and
    the restore. *)
Definition main_setup (args : Args) : M unit :=
  (present <- path_exists ;;
   if negb present then makedirs (out_dir args) else ret tt) ;;;
  main_restore args.

(** [dataset_iterator epoch] is what the data source yields on its pass
    number [epoch]. *)
Definition main (args : Args) (dataset_iterator : Z -> list image_batch)
    (s : start) : world * outcome unit :=
  (main_setup args ;;; main_run args dataset_iterator) (boot s).

(** ** Names for what one iteration computes *)

(** The noise the next [draw_noise] returns. *)
Definition next_noise (args : Args) (w : world) : Latent :=
  fst (random_uniform (batch_size args) (z_dim args) (rng w)).

(** The generator after its optimizer applied the gradients of the
    iteration that starts in [w]. *)
Definition updated_generator (args : Args) (w : world) : Gen :=
  let noise := next_noise args w in
  gen_apply_gradients (generator w)
    (gen_tape_gradient (generator w) (discriminator w) noise).

(** The discriminator after its optimizer applied the gradients of the
    iteration that starts in [w] on [batch]. *)
Definition updated_discriminator (args : Args) (batch : image_batch)
    (w : world) : Disc :=
  let noise := next_noise args w in
  disc_apply_gradients (discriminator w)
    (disc_tape_gradient (generator w) (discriminator w) noise batch).

(** The score [fid_function] returns in the iteration that starts in [w]. *)
Definition next_fid (args : Args) (batch : image_batch) (w : world) : tfloat :=
  fid_function batch (generator_call (generator w) (next_noise args w)).

End Program.

(** ** The losses and the stable logarithm *)

(** The framework operations that receive probabilities, as the program
    calls them. *)
Inductive framework_call :=
| tf_math_log (x : list Q)                        (* [tf.math.log(x)] *)
| BinaryCrossentropy (y_true y_pred : list Q).    (* [self.cross_entropy(y_true, y_pred)] *)

(** The probabilities a call hands to the framework. *)
Definition handed_over (c : framework_call) : list Q :=
  match c with
  | tf_math_log x => x
  | BinaryCrossentropy _ y_pred => y_pred
  end.

(** The floor of the stable logarithm, [1e-5]. *)
Definition stable_floor : Q := 1 # 100000.

(** Every probability handed to the framework by these calls has been
    raised to the floor before. *)
Definition clamped_at_floor (calls : list framework_call) : Prop :=
  Forall (fun c => Forall (fun p => (stable_floor <= p)%Q) (handed_over c)) calls.

(** [tf.maximum(x, c)] with a scalar [c] *)
Definition tf_maximum (x : list Q) (c : Q) : list Q :=
  map (fun v => Qmax v c) x.

Definition ones_like (x : list Q) : list Q := map (fun _ => 1%Q) x.
Definition zeros_like (x : list Q) : list Q := map (fun _ => 0%Q) x.

(** The values the framework computes are parameters: [math_log] is
    [tf.math.log] and [cross_entropy] is the [BinaryCrossentropy()] object
    each model constructs.  A score batch of shape [[batch_size, 1]] is the
    list of its scores. *)

(** [log(x)]: the result, and the framework calls made for it. *)
Definition log (math_log : list Q -> list Q) (x : list Q)
    : list Q * list framework_call :=
  let clamped := tf_maximum x stable_floor in
  (math_log clamped, [tf_math_log clamped]).

Module Discriminator_Model.

(** [Discriminator_Model.loss_function]: the loss, and the framework calls
    made for it. *)
Definition loss_function (cross_entropy : list Q -> list Q -> Q)
    (disc_real_output disc_fake_output : list Q)
    : Q * list framework_call :=
  let real_true := ones_like disc_real_output in
  let real_loss := cross_entropy real_true disc_real_output in
  let fake_true := zeros_like disc_fake_output in
  let fake_loss := cross_entropy fake_true disc_fake_output in
  let total_loss := (real_loss + fake_loss)%Q in
  (total_loss,
   [BinaryCrossentropy real_true disc_real_output;
    BinaryCrossentropy fake_true disc_fake_output]).

End Discriminator_Model.

(** ** The generator network *)

Module Generator_Model.

(** [Generator_Model.loss_function]: the loss, and the framework calls made
    for it. *)
Definition loss_function (cross_entropy : list Q -> list Q -> Q)
    (disc_fake_output : list Q) : Q * list framework_call :=
  let y_true := ones_like disc_fake_output in
  (cross_entropy y_true disc_fake_output,
   [BinaryCrossentropy y_true disc_fake_output]).

Inductive padding := same | valid.

Inductive activation := linear | tanh.

Inductive layer :=
| Dense (units : Z)
| BatchNormalization
| ReLU
| Reshape (target_shape : list Z)
| Conv2DTranspose (filters kernel_size : Z) (strides : Z * Z)
    (pad : padding) (act : activation).

(** [self.model], for a given [args.scale_model]. *)
Definition model (scale_model : Z) : list layer :=
  [ Dense (4 * 4 * 512 * scale_model);
    BatchNormalization;
    ReLU;
    Reshape [4; 4; 512 * scale_model];
    Conv2DTranspose (256 * scale_model) 5 (2, 2) same linear;
    BatchNormalization;
    ReLU;
    Conv2DTranspose (128 * scale_model) 5 (2, 2) same linear;
    BatchNormalization;
    ReLU;
    Conv2DTranspose (64 * scale_model) 5 (2, 2) same linear;
    BatchNormalization;
    ReLU;
    Conv2DTranspose 3 5 (2, 2) same tanh ].

Definition product (dims : list Z) : Z := fold_right Z.mul 1 dims.

(** The length of one spatial axis after a transposed convolution. *)
Definition deconv_length (dim stride kernel : Z) (pad : padding) : Z :=
  match pad with
  | same => dim * stride
  | valid => dim * stride + Z.max (kernel - stride) 0
  end.

(** The shape a layer produces from an input shape (batch axis first), or
    [None] when the layer rejects it. *)
Definition output_shape (l : layer) (input : list Z) : option (list Z) :=
  match l with
  | Dense units =>
      match input with
      | [b; _] => if 0 <? units then Some [b; units] else None
      | _ => None
      end
  | BatchNormalization => Some input
  | ReLU => Some input
  | Reshape target =>
      match input with
      | b :: rest =>
          if product rest =? product target then Some (b :: target) else None
      | [] => None
      end
  | Conv2DTranspose filters kernel (sh, sw) pad _ =>
      match input with
      | [b; h; w; _] =>
          if 0 <? filters
          then Some [b; deconv_length h sh kernel pad;
                     deconv_length w sw kernel pad; filters]
          else None
      | _ => None
      end
  end.

Record tensor := {
  shape : list Z;
  values : list R
}.

Definition activation_fn (a : activation) (x : R) : R :=
  match a with
  | linear => x
  | tanh => Rtrigo_def.tanh x
  end.

(** The positions of a tensor of shape [s], in row-major order. *)
Definition positions (s : list Z) : list nat :=
  seq 0 (Z.to_nat (product s)).

Section Forward.

(** [learned i x j] is the entry at position [j] of what the weights of the
    layer at position [i] compute from the input values [x], before any
    activation: the matrix product and bias of a dense layer, a transposed
    convolution, or a batch normalisation.  The output of such a layer has
    one entry per position of its output shape. *)
Variable learned : nat -> list R -> nat -> R.

Definition layer_values (i : nat) (l : layer) (out_shape : list Z)
    (x : list R) : list R :=
  match l with
  | Dense _ => map (learned i x) (positions out_shape)
  | BatchNormalization => map (learned i x) (positions out_shape)
  | ReLU => map (Rmax 0) x
  | Reshape _ => x
  | Conv2DTranspose _ _ _ _ act =>
      map (fun j => activation_fn act (learned i x j)) (positions out_shape)
  end.

Definition layer_call (i : nat) (l : layer) (t : tensor) : option tensor :=
  match output_shape l (shape t) with
  | Some s => Some {| shape := s; values := layer_values i l s (values t) |}
  | None => None
  end.

(** A [tf.keras.Sequential] applied to a tensor. *)
Fixpoint sequential (i : nat) (layers : list layer) (t : tensor)
    : option tensor :=
  match layers with
  | [] => Some t
  | l :: rest =>
      match layer_call i l t with
      | Some t' => sequential (S i) rest t'
      | None => None
      end
  end.

(** [Generator_Model.call]; the model was built for inputs of shape
    [[None, args.z_dim]]. *)
Definition call (args : Args) (inputs : tensor) : option tensor :=
  match shape inputs with
  | [_; z] =>
      if z =? z_dim args
      then sequential 0 (model (scale_model args)) inputs
      else None
  | _ => None
  end.

End Forward.

End Generator_Model.

(** ** A small backend to run the program on

    Networks are update counters, the generator paints one white pixel per
    image, the distance of any two batches is 1, and every device name is
    accepted. *)
Definition counting_backend : Backend := {|
  Gen := Z;
  Disc := Z;
  Rng := Z;
  Latent := Z;
  Grads_G := Z;
  Grads_D := Z;
  fresh_generator := 0;
  fresh_discriminator := 0;
  random_uniform := fun _ _ r => (r, r + 1);
  generator_call := fun _ _ => [[1%Q]; [(-1)%Q]];
  gen_tape_gradient := fun _ _ _ => 1;
  disc_tape_gradient := fun _ _ _ _ => 1;
  gen_apply_gradients := fun g dg => g + dg;
  disc_apply_gradients := fun d dd => d + dd;
  fid_function := fun _ _ => Finite 1;
  tf_device := fun _ => None
|}.

(** A first run with the counting backend: no checkpoint on disk yet. *)
Definition first_run : @start counting_backend :=
  @Build_start counting_backend [] 1 true 0.

(** The generator updates in a trace, as iteration numbers. *)
Definition gen_updates (evs : list event) : list Z :=
  flat_map (fun e => match e with GenUpdate i => [i] | _ => [] end) evs.

(** The discriminator updates in a trace. *)
Definition disc_updates (evs : list event) : list Z :=
  flat_map (fun e => match e with DiscUpdate i => [i] | _ => [] end) evs.

(** The evaluations of the Inception distance in a trace. *)
Definition fid_evaluations (evs : list event) : list Z :=
  flat_map (fun e => match e with FidEvaluated i => [i] | _ => [] end) evs.

(** The iteration numbers [enumerate] hands out, [n] of them from [i] on. *)
Fixpoint enumerate_from (i : Z) (n : nat) : list Z :=
  match n with
  | O => []
  | S n' => i :: enumerate_from (i + 1) n'
  end.

Definition is_restore (e : event) : bool :=
  match e with CheckpointRestore _ => true | _ => false end.

Definition is_makedirs (e : event) : bool :=
  match e with Makedirs _ => true | _ => false end.

(** A computation that does not restore a checkpoint: it only appends
    events other than [CheckpointRestore] to the trace. *)
Definition restore_free {B : Backend} {A : Type} (m : M A) : Prop :=
  forall w, exists evs,
    trace (fst (m w)) = trace w ++ evs /\
    Forall (fun e => is_restore e = false) evs.

(** The events of the iteration numbered [i] when it starts in [w] and
    neither remainder raises. *)
Definition step_events {B : Backend} (args : Args) (i : Z) (w : world)
    : list event :=
  GenUpdate i
  :: (if i mod num_gen_updates args =? 0
      then [DiscUpdate i] else [DiscTapeDeleted i])
  ++ (if i mod save_every args =? 0
      then [ManagerSave (CheckpointManager.next_id (manager w))] else [])
  ++ (if i mod 500 =? 0 then [FidEvaluated i] else []).

(** ** The discriminator network *)

Module Discriminator_Network.

Inductive activation := linear | sigmoid.

Inductive layer :=
| Conv2D (filters kernel_size : Z) (strides : Z * Z)
    (pad : Generator_Model.padding)
| LeakyReLU (alpha : R)
| BatchNormalization
| Flatten
| Dense (units : Z) (act : activation).

(** [alpha=0.02] *)
Definition alpha : R := (2 / 100)%R.

(** [self.model] of [Discriminator_Model], for a given [args.scale_model]. *)
Definition model (scale_model : Z) : list layer :=
  [ Conv2D (64 * scale_model) 5 (2, 2) Generator_Model.same;
    LeakyReLU alpha;
    Conv2D (128 * scale_model) 5 (2, 2) Generator_Model.same;
    BatchNormalization;
    LeakyReLU alpha;
    Conv2D (256 * scale_model) 5 (2, 2) Generator_Model.same;
    BatchNormalization;
    LeakyReLU alpha;
    Conv2D (512 * scale_model) 5 (2, 2) Generator_Model.same;
    BatchNormalization;
    LeakyReLU alpha;
    Flatten;
    Dense 1 sigmoid ].

(** The length of one spatial axis after a strided convolution. *)
Definition conv_length (dim stride kernel : Z) (pad : Generator_Model.padding)
    : Z :=
  match pad with
  | Generator_Model.same => (dim + stride - 1) / stride
  | Generator_Model.valid => (dim - kernel + 1 + stride - 1) / stride
  end.

(** The shape a layer produces from an input shape (batch axis first), or
    [None] when the layer rejects it. *)
Definition output_shape (l : layer) (input : list Z) : option (list Z) :=
  match l with
  | Conv2D filters kernel (sh, sw) pad =>
      match input with
      | [b; h; w; _] =>
          if 0 <? filters
          then Some [b; conv_length h sh kernel pad;
                     conv_length w sw kernel pad; filters]
          else None
      | _ => None
      end
  | LeakyReLU _ => Some input
  | BatchNormalization => Some input
  | Flatten =>
      match input with
      | b :: rest => Some [b; Generator_Model.product rest]
      | [] => None
      end
  | Dense units _ =>
      match input with
      | [b; _] => if 0 <? units then Some [b; units] else None
      | _ => None
      end
  end.

(** The weights of a layer are created when the model is built, for the
    number of channels (or features) of the shape it is built with; a layer
    with weights accepts an input only when its last axis has that length.
    The other axes are free. *)
Definition compatible (l : layer) (built input : list Z) : bool :=
  match l with
  | Conv2D _ _ _ _ => last input 0 =? last built 0
  | BatchNormalization => last input 0 =? last built 0
  | Dense _ _ => last input 0 =? last built 0
  | LeakyReLU _ => true
  | Flatten => true
  end.

Definition leaky_relu (a x : R) : R :=
  if Rle_dec 0 x then x else (a * x)%R.

Definition activation_fn (a : activation) (x : R) : R :=
  match a with
  | linear => x
  | sigmoid => (1 / (1 + exp (- x)))%R
  end.

Section Forward.

(** [learned i x j] is the entry at position [j] of what the weights of the
    layer at position [i] compute from the input values [x], before any
    activation: a convolution, a batch normalisation, or the matrix product
    and bias of the dense layer. *)
Variable learned : nat -> list R -> nat -> R.

Definition layer_values (i : nat) (l : layer) (out_shape : list Z)
    (x : list R) : list R :=
  match l with
  | Conv2D _ _ _ _ =>
      map (learned i x) (Generator_Model.positions out_shape)
  | LeakyReLU a => map (leaky_relu a) x
  | BatchNormalization =>
      map (learned i x) (Generator_Model.positions out_shape)
  | Flatten => x
  | Dense _ act =>
      map (fun j => activation_fn act (learned i x j))
        (Generator_Model.positions out_shape)
  end.

Definition layer_call (i : nat) (l : layer) (t : Generator_Model.tensor)
    : option Generator_Model.tensor :=
  match output_shape l (Generator_Model.shape t) with
  | Some s =>
      Some {| Generator_Model.shape := s;
              Generator_Model.values :=
                layer_values i l s (Generator_Model.values t) |}
  | None => None
  end.

(** A built [tf.keras.Sequential] applied to a tensor; [built] is the shape
    the next layer was built with. *)
Fixpoint sequential (i : nat) (layers : list layer) (built : list Z)
    (t : Generator_Model.tensor) : option Generator_Model.tensor :=
  match layers with
  | [] => Some t
  | l :: rest =>
      if compatible l built (Generator_Model.shape t)
      then
        match layer_call i l t, output_shape l built with
        | Some t', Some built' => sequential (S i) rest built' t'
        | _, _ => None
        end
      else None
  end.

(** The shape of [self.model.build([None, 64, 64, 3])], with 0 for the
    unknown batch size. *)
Definition built_input : list Z := [0; 64; 64; 3].

(** [Discriminator_Model.call] *)
Definition call (args : Args) (inputs : Generator_Model.tensor)
    : option Generator_Model.tensor :=
  sequential 0 (model (scale_model args)) built_input inputs.

End Forward.

End Discriminator_Network.

(** ** What a computation may emit and what it keeps *)



Definition is_imwrite (e : event) : bool :=
  match e with Imwrite _ _ => true | _ => false end.

Definition is_save (e : event) : bool :=
  match e with ManagerSave _ => true | _ => false end.

(** The events of the training loop. *)
Definition is_training (e : event) : bool :=
  match e with
  | GenUpdate _ | DiscUpdate _ | DiscTapeDeleted _
  | ManagerSave _ | FidEvaluated _ => true
  | _ => false
  end.

(** The epochs announced in a trace. *)
Definition epochs_started (evs : list event) : list Z :=
  flat_map (fun e => match e with EpochStarted i => [i] | _ => [] end) evs.

(** A trace made of one block per epoch: the announcement of the epoch,
    the events of its training loop, and the save at its end. *)
Fixpoint epoch_blocks (epochs : list Z) (evs : list event) : Prop :=
  match epochs with
  | [] => evs = []
  | e :: later =>
      exists during id rest,
        evs = EpochStarted e :: during ++ ManagerSave id :: rest /\
        Forall (fun ev => is_training ev = true) during /\
        epoch_blocks later rest
  end.

(** The files written in a trace. *)
Definition imwrites (evs : list event) : list (string * list Z) :=
  flat_map (fun e => match e with Imwrite s px => [(s, px)] | _ => [] end) evs.

(** [n] divided by a positive [k], rounded up. *)
Definition ceil_div (n k : Z) : Z := (n + k - 1) / k.

(** The default configuration with another [num_gen_updates] and
    [save_every]. *)
Definition with_cadence (k s : Z) : Args := {|
  img_dir := img_dir default_args;
  out_dir := out_dir default_args;
  mode := mode default_args;
  restore_checkpoint := restore_checkpoint default_args;
  z_dim := z_dim default_args;
  batch_size := batch_size default_args;
  num_data_threads := num_data_threads default_args;
  num_epochs := num_epochs default_args;
  num_gen_updates := k;
  log_every := log_every default_args;
  save_every := s;
  device := device default_args;
  scale_model := scale_model default_args
|}.

(** The sampling configuration with another [mode]. *)
Definition with_mode (m : string) : Args := {|
  img_dir := img_dir sampling_args;
  out_dir := out_dir sampling_args;
  mode := m;
  restore_checkpoint := restore_checkpoint sampling_args;
  z_dim := z_dim sampling_args;
  batch_size := batch_size sampling_args;
  num_data_threads := num_data_threads sampling_args;
  num_epochs := 2;
  num_gen_updates := num_gen_updates sampling_args;
  log_every := log_every sampling_args;
  save_every := save_every sampling_args;
  device := device sampling_args;
  scale_model := scale_model sampling_args
|}.

(** The body of the epoch loop of [main]. *)
Definition epoch_body {B : Backend} (args : Args)
    (dataset_iterator : Z -> list image_batch) (epoch : Z) : M unit :=
  bind (emit (EpochStarted epoch)) (fun _ =>
  bind (train args (dataset_iterator epoch)) (fun avg_fid => manager_save)).

(** The counting backend under a framework that cannot parse the device
    name: entering the device scope raises [ValueError]. *)
Definition refusing_backend : Backend := {|
  Gen := Z;
  Disc := Z;
  Rng := Z;
  Latent := Z;
  Grads_G := Z;
  Grads_D := Z;
  fresh_generator := 0;
  fresh_discriminator := 0;
  random_uniform := fun _ _ r => (r, r + 1);
  generator_call := fun _ _ => [[1%Q]; [(-1)%Q]];
  gen_tape_gradient := fun _ _ _ => 1;
  disc_tape_gradient := fun _ _ _ _ => 1;
  gen_apply_gradients := fun g dg => g + dg;
  disc_apply_gradients := fun d dd => d + dd;
  fid_function := fun _ _ => Finite 1;
  tf_device := fun _ => Some ValueError
|}.

(** A first run with the refusing backend. *)
Definition refused_run : @start refusing_backend :=
  @Build_start refusing_backend [] 1 true 0.

(** * Properties *)

(** ** The checkpoint manager *)

Module CheckpointFacts.
Import CheckpointManager.

Lemma keep_last_length {A} (k : nat) (l : list A) :
  List.length (keep_last k l) = Nat.min k (List.length l).
Proof.
  unfold keep_last. rewrite length_skipn. lia.
Qed.

Lemma keep_last_all {A} (k : nat) (l : list A) :
  (List.length l <= k)%nat -> keep_last k l = l.
Proof.
  intros H. unfold keep_last.
  replace (List.length l - k)%nat with 0%nat by lia. reflexivity.
Qed.

Lemma keep_last_map {A C} (f : A -> C) (k : nat) (l : list A) :
  map f (keep_last k l) = keep_last k (map f l).
Proof.
  unfold keep_last. rewrite length_map. symmetry. apply skipn_map.
Qed.

(** Pruning after each save is the same as pruning once at the end. *)
Lemma keep_last_snoc {A} (k : nat) (l : list A) (x : A) :
  keep_last k (keep_last k l ++ [x]) = keep_last k (l ++ [x]).
Proof.
  unfold keep_last.
  set (b := (List.length l - k)%nat).
  assert (Hb : (b <= List.length l)%nat) by (unfold b; lia).
  assert (E : skipn b l ++ [x] = skipn b (l ++ [x])).
  { rewrite skipn_app.
    replace (b - List.length l)%nat with 0%nat by lia. reflexivity. }
  rewrite E, skipn_skipn. f_equal.
  rewrite length_skipn, !length_app. simpl. unfold b. lia.
Qed.

(** Dropping a prefix that the bound would delete anyway. *)
Lemma keep_last_app {A} (k : nat) (old new : list A) :
  (k <= List.length new)%nat -> keep_last k (old ++ new) = keep_last k new.
Proof.
  intros H. unfold keep_last. rewrite length_app, skipn_app.
  replace (List.length old + List.length new - k)%nat
    with (List.length old + (List.length new - k))%nat by lia.
  rewrite skipn_all2 by lia. simpl. f_equal. lia.
Qed.

Lemma save_all_max_to_keep {State} (l : list State) (m : t State) :
  max_to_keep (save_all l m) = max_to_keep m.
Proof.
  revert m. induction l as [|s l IH]; intros m; simpl; [reflexivity|].
  unfold save_all in *. simpl. rewrite IH. reflexivity.
Qed.

Lemma save_all_next_id {State} (l : list State) (m : t State) :
  next_id (save_all l m) = next_id m + Z.of_nat (List.length l).
Proof.
  revert m. induction l as [|s l IH]; intros m.
  - simpl. lia.
  - unfold save_all in *. simpl fold_left. rewrite IH.
    simpl next_id. simpl List.length. lia.
Qed.

Lemma save_states {State} (s : State) (m : t State) :
  map snd (checkpoints (save s m))
  = keep_last (max_to_keep m) (map snd (checkpoints m) ++ [s]).
Proof.
  simpl. rewrite keep_last_map, map_app. reflexivity.
Qed.

Lemma save_all_snoc {State} (l : list State) (s : State) (m : t State) :
  save_all (l ++ [s]) m = save s (save_all l m).
Proof.
  unfold save_all. rewrite fold_left_app. reflexivity.
Qed.

(** What a run of saves leaves in the directory. *)
Lemma save_all_states {State} (l : list State) (m : t State) :
  l <> [] ->
  map snd (checkpoints (save_all l m))
  = keep_last (max_to_keep m) (map snd (checkpoints m) ++ l).
Proof.
  induction l as [|s l IH] using rev_ind; intros Hne; [congruence|].
  rewrite save_all_snoc, save_states, save_all_max_to_keep.
  destruct l as [|s0 l0].
  - reflexivity.
  - rewrite IH by discriminate.
    rewrite keep_last_snoc, app_assoc. reflexivity.
Qed.

Lemma restore_latest_save {State} (s : State) (m : t State) :
  (0 < max_to_keep m)%nat -> restore_latest (save s m) = Some s.
Proof.
  intros HK. unfold restore_latest, latest_checkpoint, save. simpl.
  set (l := checkpoints m ++ [(next_id m, s)]).
  assert (Hk : exists pre, keep_last (max_to_keep m) l = pre ++ [(next_id m, s)]).
  { unfold keep_last, l. rewrite length_app, skipn_app. simpl List.length.
    replace (List.length (checkpoints m) + 1 - max_to_keep m
             - List.length (checkpoints m))%nat with 0%nat by lia.
    simpl. eexists. reflexivity. }
  destruct Hk as [pre ->].
  rewrite map_app. simpl. rewrite last_last. reflexivity.
Qed.

End CheckpointFacts.

Section CheckpointClaims.
Context {B : Backend}.
Import CheckpointManager CheckpointFacts.

(** The manager that [main] constructs keeps three checkpoints. *)
Lemma boot_max_to_keep (s : start) :
  max_to_keep (manager (boot s)) = 3%nat.
Proof. reflexivity. Qed.

(** C5: checkpoint round-trip.  Whatever the networks (weights and
    optimizer state) are when [manager.save()] runs, and whatever they are
    changed to afterwards, [checkpoint.restore(manager.latest_checkpoint)]
    gives back exactly the networks that were saved; equal parameters are
    in particular equal within any tolerance.  The manager keeps at least
    one checkpoint. *)
Theorem checkpoint_round_trip (w : world) (g : Gen) (d : Disc) :
  (0 < max_to_keep (manager w))%nat ->
  let w_saved := fst (manager_save w) in
  let w_changed :=
    fst (bind (set_generator g) (fun _ => set_discriminator d) w_saved) in
  let w_restored := fst (checkpoint_restore w_changed) in
  restore_latest (manager w_saved) = Some (generator w, discriminator w) /\
  generator w_restored = generator w /\
  discriminator w_restored = discriminator w.
Proof.
  intros HK. cbv zeta.
  assert (E : restore_latest (manager (fst (manager_save w)))
              = Some (generator w, discriminator w)).
  { unfold manager_save. simpl. apply restore_latest_save. exact HK. }
  split; [exact E|].
  unfold checkpoint_restore, bind, set_generator, set_discriminator.
  simpl. unfold manager_save in E. simpl in E. rewrite E. simpl. auto.
Qed.

End CheckpointClaims.

(** C6: retention bound.  After more than K saves with retention bound K,
    exactly K checkpoints remain, they hold the K most recently saved
    states in the order they were saved, and each further save again keeps
    the last K of what was there plus the new one. *)
Theorem retention_bound {State : Type} (m : CheckpointManager.t State)
    (l : list State) :
  (CheckpointManager.max_to_keep m < List.length l)%nat ->
  let K := CheckpointManager.max_to_keep m in
  let m' := CheckpointManager.save_all l m in
  List.length (CheckpointManager.checkpoints m') = K /\
  map snd (CheckpointManager.checkpoints m') = CheckpointManager.keep_last K l /\
  forall s,
    map snd (CheckpointManager.checkpoints (CheckpointManager.save s m'))
    = CheckpointManager.keep_last K
        (map snd (CheckpointManager.checkpoints m') ++ [s]).
Proof.
  intros Hlen K m'.
  assert (Hne : l <> []) by (destruct l; [simpl in Hlen; lia | discriminate]).
  assert (E : map snd (CheckpointManager.checkpoints m')
              = CheckpointManager.keep_last K l).
  { unfold m'. rewrite CheckpointFacts.save_all_states by exact Hne.
    apply CheckpointFacts.keep_last_app. unfold K. lia. }
  split; [|split].
  - rewrite <- (length_map snd), E, CheckpointFacts.keep_last_length.
    unfold K. lia.
  - exact E.
  - intros s. rewrite CheckpointFacts.save_states.
    unfold m'. rewrite CheckpointFacts.save_all_max_to_keep. reflexivity.
Qed.

(** Six saves into the empty directory of [main]'s manager (K = 3). *)
Lemma retention_bound_witness :
  let m := {| CheckpointManager.checkpoints := @nil (Z * nat);
              CheckpointManager.next_id := 1;
              CheckpointManager.max_to_keep := 3 |} in
  let m' := CheckpointManager.save_all [10; 11; 12; 13; 14; 15]%nat m in
  List.length (CheckpointManager.checkpoints m') = 3%nat /\
  map snd (CheckpointManager.checkpoints m') = [13; 14; 15]%nat.
Proof.
  intros m m'.
  pose proof (@retention_bound nat m [10; 11; 12; 13; 14; 15]%nat) as H.
  simpl in H. specialize (H ltac:(lia)).
  destruct H as [H1 [H2 _]]. split; [exact H1 | exact H2].
Defined.

(** Saving, training on, and restoring with the counting backend. *)
Lemma checkpoint_round_trip_witness :
  let w := boot first_run in
  let w_saved := fst (manager_save w) in
  let w_changed :=
    fst (bind (set_generator (B := counting_backend) 7)
           (fun _ => set_discriminator (B := counting_backend) 9) w_saved) in
  generator (fst (checkpoint_restore w_changed)) = 0.
Proof.
  intros w w_saved w_changed.
  pose proof (@checkpoint_round_trip counting_backend w 7 9) as H.
  simpl in H. specialize (H ltac:(lia)).
  destruct H as [_ [H _]]. exact H.
Defined.

(** ** Sampling *)

Lemma rescale_bounds (x : Q) :
  (-1 <= x <= 1 -> -255 <= rescale x <= 0)%Q.
Proof.
  unfold rescale, Qdiv. change (/ 2)%Q with (1 # 2)%Q.
  intros [H1 H2]. split; Lqa.lra.
Qed.

(** C2: the rescaling of [test] at the two ends of the generator's range.
    The claim (and the comment in the code) wants -1 sent to 0 and 1 sent
    to 255; the code sends -1 to -255 and 1 to 0, and a pixel of value -1
    leaves the range [0, 255]. *)
Theorem rescale_endpoints :
  (rescale (-1) == -255)%Q /\ (rescale 1 == 0)%Q /\
  ~ (0 <= rescale (-1) <= 255)%Q.
Proof.
  split; [reflexivity | split; [reflexivity |]].
  intros [H _]. revert H. unfold rescale, Qle. simpl. lia.
Qed.

(** ** Losses *)

Lemma tf_maximum_floor (x : list Q) (c : Q) :
  Forall (fun p => (c <= p)%Q) (tf_maximum x c).
Proof.
  unfold tf_maximum. apply Forall_forall. intros p Hp.
  apply in_map_iff in Hp. destruct Hp as [v [<- _]].
  apply Q.le_max_r.
Qed.

(** The discriminator's loss hands the score 0 to the framework's
    cross-entropy as it is: nothing has raised it to [1e-5]. *)
Lemma loss_function_not_clamped :
  ~ clamped_at_floor
      (snd (Discriminator_Model.loss_function (fun _ _ => 0%Q) [0%Q] [0%Q])).
Proof.
  unfold clamped_at_floor. simpl. intros H.
  inversion H as [|c cs Hc _]; subst.
  inversion Hc as [|p ps Hp _]; subst.
  revert Hp. unfold stable_floor, Qle. simpl. lia.
Qed.

(** C4, as the code has it: the stable logarithm [log] raises every entry
    of its argument to [1e-5] before [tf.math.log] sees it; the
    discriminator's [loss_function] does not call [log]: it makes two calls
    of the framework's cross-entropy, on the real scores against ones and
    on the fake scores against zeros, with the scores exactly as it
    received them, and returns the sum.  So what it hands over respects
    the floor only when the scores already do. *)
Theorem loss_function_delegates (math_log : list Q -> list Q)
    (cross_entropy : list Q -> list Q -> Q) (x real fake : list Q) :
  clamped_at_floor (snd (log math_log x)) /\
  snd (Discriminator_Model.loss_function cross_entropy real fake)
  = [BinaryCrossentropy (ones_like real) real;
     BinaryCrossentropy (zeros_like fake) fake] /\
  fst (Discriminator_Model.loss_function cross_entropy real fake)
  = (cross_entropy (ones_like real) real
     + cross_entropy (zeros_like fake) fake)%Q /\
  (clamped_at_floor (snd (Discriminator_Model.loss_function cross_entropy real fake))
   <-> Forall (fun p => (stable_floor <= p)%Q) (real ++ fake)).
Proof.
  split; [|split; [reflexivity | split; [reflexivity |]]].
  - unfold log, clamped_at_floor. simpl. constructor; [|constructor].
    apply tf_maximum_floor.
  - unfold clamped_at_floor. simpl. rewrite Forall_app. split.
    + intros H. inversion H as [|c cs Hr Hrest]; subst.
      inversion Hrest as [|c' cs' Hf _]; subst. split; assumption.
    + intros [Hr Hf]. repeat constructor; assumption.
Qed.

(** ** The generator *)

Module GeneratorFacts.
Import Generator_Model.

Lemma tanh_bounds (x : R) : (-1 <= Rtrigo_def.tanh x <= 1)%R.
Proof.
  unfold Rtrigo_def.tanh, sinh, cosh.
  pose proof (exp_pos x) as Hp.
  pose proof (exp_pos (- x)) as Hn.
  set (c := ((exp x + exp (- x)) / 2)%R).
  set (s := ((exp x - exp (- x)) / 2)%R).
  assert (Hc : (0 < c)%R) by (unfold c; lra).
  assert (Hs : (- c <= s <= c)%R) by (unfold c, s; lra).
  assert (E : (s / c * c = s)%R) by (field; lra).
  split; apply Rmult_le_reg_r with c; try exact Hc; rewrite E; lra.
Qed.

Section Layers.
Variable learned : nat -> list R -> nat -> R.

Lemma layer_call_Dense (i : nat) (u b d : Z) (v : list R) :
  0 < u ->
  layer_call learned i (Dense u) {| shape := [b; d]; values := v |}
  = Some {| shape := [b; u];
            values := map (learned i v) (positions [b; u]) |}.
Proof.
  intros H. unfold layer_call. cbn [output_shape shape values].
  apply Z.ltb_lt in H. rewrite H. reflexivity.
Qed.

Lemma layer_call_BatchNormalization (i : nat) (t : tensor) :
  layer_call learned i BatchNormalization t
  = Some {| shape := shape t;
            values := map (learned i (values t)) (positions (shape t)) |}.
Proof. reflexivity. Qed.

Lemma layer_call_ReLU (i : nat) (t : tensor) :
  layer_call learned i ReLU t
  = Some {| shape := shape t; values := map (Rmax 0) (values t) |}.
Proof. reflexivity. Qed.

Lemma layer_call_Reshape (i : nat) (target rest : list Z) (b : Z)
    (v : list R) :
  product rest = product target ->
  layer_call learned i (Reshape target) {| shape := b :: rest; values := v |}
  = Some {| shape := b :: target; values := v |}.
Proof.
  intros H. unfold layer_call. cbn [output_shape shape values].
  apply Z.eqb_eq in H. rewrite H. reflexivity.
Qed.

Lemma layer_call_Conv2DTranspose (i : nat) (f k sh sw b h w c : Z)
    (pad : padding) (act : activation) (v : list R) :
  0 < f ->
  layer_call learned i (Conv2DTranspose f k (sh, sw) pad act)
    {| shape := [b; h; w; c]; values := v |}
  = Some {| shape := [b; deconv_length h sh k pad;
                      deconv_length w sw k pad; f];
            values :=
              map (fun j => activation_fn act (learned i v j))
                (positions [b; deconv_length h sh k pad;
                            deconv_length w sw k pad; f]) |}.
Proof.
  intros H. unfold layer_call. cbn [output_shape shape values].
  apply Z.ltb_lt in H. rewrite H. reflexivity.
Qed.

End Layers.

Lemma positions_length (s : list Z) :
  List.length (positions s) = Z.to_nat (product s).
Proof. unfold positions. apply length_seq. Qed.

End GeneratorFacts.

(** C7: the generator's forward pass.  For every latent dimensionality,
    batch size and positive width multiplier, [call] on a tensor of shape
    [[B, Z]] returns a tensor of shape [[B, 64, 64, 3]] (the 4x4 map doubled
    four times) with one value for each of its B * 64 * 64 * 3 positions,
    and every one of these values lies in [[-1, 1]], being a hyperbolic
    tangent.  This holds whatever the weights compute. *)
Theorem generator_call_shape_and_range
    (learned : nat -> list R -> nat -> R)
    (args : Args) (inputs : Generator_Model.tensor) (B : Z) :
  0 < scale_model args ->
  Generator_Model.shape inputs = [B; z_dim args] ->
  exists out,
    Generator_Model.call learned args inputs = Some out /\
    Generator_Model.shape out = [B; 64; 64; 3] /\
    List.length (Generator_Model.values out) = Z.to_nat (B * 64 * 64 * 3) /\
    Forall (fun v => (-1 <= v <= 1)%R) (Generator_Model.values out).
Proof.
  intros Hs Hshape.
  destruct inputs as [sh v]. simpl in Hshape. subst sh.
  unfold Generator_Model.call. cbn [Generator_Model.shape].
  rewrite Z.eqb_refl. unfold Generator_Model.model.
  set (s := scale_model args) in *.
  cbn [Generator_Model.sequential].
  rewrite GeneratorFacts.layer_call_Dense by lia.
  rewrite GeneratorFacts.layer_call_BatchNormalization.
  rewrite GeneratorFacts.layer_call_ReLU.
  cbn [Generator_Model.shape Generator_Model.values].
  rewrite GeneratorFacts.layer_call_Reshape
    by (unfold Generator_Model.product; cbn [fold_right]; lia).
  rewrite GeneratorFacts.layer_call_Conv2DTranspose by lia.
  rewrite GeneratorFacts.layer_call_BatchNormalization.
  rewrite GeneratorFacts.layer_call_ReLU.
  cbn [Generator_Model.shape Generator_Model.values].
  rewrite GeneratorFacts.layer_call_Conv2DTranspose by lia.
  rewrite GeneratorFacts.layer_call_BatchNormalization.
  rewrite GeneratorFacts.layer_call_ReLU.
  cbn [Generator_Model.shape Generator_Model.values].
  rewrite GeneratorFacts.layer_call_Conv2DTranspose by lia.
  rewrite GeneratorFacts.layer_call_BatchNormalization.
  rewrite GeneratorFacts.layer_call_ReLU.
  cbn [Generator_Model.shape Generator_Model.values].
  rewrite GeneratorFacts.layer_call_Conv2DTranspose by lia.
  eexists. split; [reflexivity | split; [|split]].
  - reflexivity.
  - cbn [Generator_Model.values].
    rewrite length_map, GeneratorFacts.positions_length.
    f_equal. unfold Generator_Model.product, Generator_Model.deconv_length.
    cbn [fold_right]. lia.
  - cbn [Generator_Model.values].
    apply Forall_forall. intros y Hy.
    apply in_map_iff in Hy. destruct Hy as [j [<- _]].
    cbn [Generator_Model.activation_fn]. apply GeneratorFacts.tanh_bounds.
Qed.

(** The default configuration on a batch of two latent vectors: 24576
    values come out. *)
Lemma generator_call_shape_and_range_witness :
  exists out,
    Generator_Model.call (fun _ x j => nth j x 0%R) default_args
      {| Generator_Model.shape := [2; 100];
         Generator_Model.values := repeat 0%R 200 |} = Some out /\
    Generator_Model.shape out = [2; 64; 64; 3] /\
    List.length (Generator_Model.values out) = Z.to_nat (2 * 64 * 64 * 3) /\
    Forall (fun v => (-1 <= v <= 1)%R) (Generator_Model.values out).
Proof.
  apply (@generator_call_shape_and_range (fun _ x j => nth j x 0%R)
           default_args
           {| Generator_Model.shape := [2; 100];
              Generator_Model.values := repeat 0%R 200 |} 2).
  - simpl. lia.
  - reflexivity.
Defined.

(** ** The training loop *)

Section TrainingFacts.
Context {B : Backend}.
Variable args : Args.

Lemma train_body_run (i : Z) (batch : image_batch) (c : tfloat) (n : Z)
    (w : world) :
  num_gen_updates args <> 0 ->
  save_every args <> 0 ->
  exists w',
    train_body args i batch c n w
    = (w', Returns (if i mod 500 =? 0
                    then (tf_add c (next_fid args batch w), n + 1)
                    else (c, n))) /\
    generator w' = updated_generator args w /\
    discriminator w'
    = (if i mod num_gen_updates args =? 0
       then updated_discriminator args batch w else discriminator w) /\
    trace w' = trace w ++ step_events args i w.
Proof.
  intros Hk Hs.
  apply Z.eqb_neq in Hk. apply Z.eqb_neq in Hs.
  unfold step_events, next_fid, updated_generator, updated_discriminator,
    next_noise.
  unfold train_body, bind, draw_noise, get_generator, get_discriminator,
    set_generator, set_discriminator, emit, py_mod, manager_save, ret, raise.
  destruct (random_uniform (batch_size args) (z_dim args) (rng w))
    as [noise r] eqn:Hr.
  rewrite Hk, Hs. cbn [fst snd].
  destruct (i mod num_gen_updates args =? 0);
    destruct (i mod save_every args =? 0);
    destruct (i mod 500 =? 0);
    cbn; eexists; (split; [reflexivity|]); cbn;
    repeat split; rewrite <- ?app_assoc; reflexivity.
Qed.

Lemma gen_updates_step (i : Z) (w : world) :
  gen_updates (step_events args i w) = [i].
Proof.
  unfold step_events, gen_updates.
  destruct (i mod num_gen_updates args =? 0);
    destruct (i mod save_every args =? 0);
    destruct (i mod 500 =? 0); reflexivity.
Qed.

Lemma disc_updates_step (i : Z) (w : world) :
  disc_updates (step_events args i w)
  = (if i mod num_gen_updates args =? 0 then [i] else []).
Proof.
  unfold step_events, disc_updates.
  destruct (i mod num_gen_updates args =? 0);
    destruct (i mod save_every args =? 0);
    destruct (i mod 500 =? 0); reflexivity.
Qed.

Lemma fid_evaluations_step (i : Z) (w : world) :
  fid_evaluations (step_events args i w) = (if i mod 500 =? 0 then [i] else []).
Proof.
  unfold step_events, fid_evaluations.
  destruct (i mod num_gen_updates args =? 0);
    destruct (i mod save_every args =? 0);
    destruct (i mod 500 =? 0); reflexivity.
Qed.

(** The loop runs to the end of the data and its trace is the
    concatenation of the iterations' events. *)
Lemma train_loop_run (batches : list image_batch) :
  num_gen_updates args <> 0 ->
  save_every args <> 0 ->
  forall (i : Z) (c : tfloat) (n : Z) (w : world),
  exists w' c' n' evs,
    train_loop args i batches c n w = (w', Returns (c', n')) /\
    trace w' = trace w ++ evs /\
    gen_updates evs = enumerate_from i (List.length batches) /\
    disc_updates evs
    = filter (fun j => j mod num_gen_updates args =? 0)
        (enumerate_from i (List.length batches)) /\
    fid_evaluations evs
    = filter (fun j => j mod 500 =? 0)
        (enumerate_from i (List.length batches)) /\
    n' = n + Z.of_nat (List.length (fid_evaluations evs)).
Proof.
  intros Hk Hs.
  induction batches as [|batch rest IH]; intros i c n w.
  - exists w, c, n, []. cbn. rewrite app_nil_r.
    repeat split; try reflexivity. lia.
  - destruct (train_body_run i batch c n w Hk Hs) as [w1 [E1 [_ [_ T1]]]].
    cbn [train_loop]. unfold bind at 1. rewrite E1.
    set (acc := if i mod 500 =? 0
                then (tf_add c (next_fid args batch w), n + 1) else (c, n)).
    destruct (IH (i + 1) (fst acc) (snd acc) w1)
      as [w' [c' [n' [evs [E [T [G [D [F N]]]]]]]]].
    exists w', c', n', (step_events args i w ++ evs).
    split; [exact E|].
    split; [rewrite T, T1, <- app_assoc; reflexivity|].
    unfold gen_updates, disc_updates, fid_evaluations in *.
    rewrite !flat_map_app.
    fold (gen_updates (step_events args i w)).
    fold (disc_updates (step_events args i w)).
    fold (fid_evaluations (step_events args i w)).
    rewrite gen_updates_step, disc_updates_step, fid_evaluations_step.
    rewrite G, D, F. cbn [List.length enumerate_from filter].
    repeat split.
    + destruct (i mod num_gen_updates args =? 0); reflexivity.
    + destruct (i mod 500 =? 0); reflexivity.
    + rewrite N. unfold acc. rewrite length_app, F.
      destruct (i mod 500 =? 0); cbn [snd List.length]; lia.
Qed.

(** Whatever the configuration, an iteration either completes, counting
    an evaluation when its number is a multiple of 500, or stops at one of
    the two remainders. *)
Lemma train_body_outcome (i : Z) (batch : image_batch) (c : tfloat) (n : Z)
    (w : world) :
  match snd (train_body args i batch c n w) with
  | Returns acc => snd acc = (if i mod 500 =? 0 then n + 1 else n)
  | Raises e => e <> ZeroDivisionError at_mean
  end.
Proof.
  unfold train_body, bind, draw_noise, get_generator, get_discriminator,
    set_generator, set_discriminator, emit, py_mod, manager_save, ret, raise.
  destruct (random_uniform (batch_size args) (z_dim args) (rng w))
    as [noise r].
  destruct (num_gen_updates args =? 0); [cbn; discriminate|].
  destruct (save_every args =? 0);
    destruct (i mod num_gen_updates args =? 0); cbn; try discriminate;
    destruct (i mod save_every args =? 0);
    destruct (i mod 500 =? 0); reflexivity.
Qed.

Lemma train_loop_outcome (batches : list image_batch) :
  forall (i : Z) (c : tfloat) (n : Z) (w : world),
  match snd (train_loop args i batches c n w) with
  | Returns acc =>
      n <= snd acc /\ (batches <> [] -> i mod 500 = 0 -> n < snd acc)
  | Raises e => e <> ZeroDivisionError at_mean
  end.
Proof.
  induction batches as [|batch rest IH]; intros i c n w.
  - cbn. split; [lia | congruence].
  - cbn [train_loop]. unfold bind.
    pose proof (train_body_outcome i batch c n w) as Hb.
    destruct (train_body args i batch c n w) as [w1 [acc|e]]; cbn [snd] in Hb.
    + specialize (IH (i + 1) (fst acc) (snd acc) w1).
      destruct (snd (train_loop args (i + 1) rest (fst acc) (snd acc) w1))
        as [acc'|e'] eqn:E.
      * destruct (train_loop args (i + 1) rest (fst acc) (snd acc) w1)
          as [w2 o]. cbn [snd] in E |- *. subst o.
        destruct IH as [IH1 _]. rewrite Hb in IH1.
        split.
        -- destruct (i mod 500 =? 0); lia.
        -- intros _ Hi. apply Z.eqb_eq in Hi. rewrite Hi in IH1. lia.
      * destruct (train_loop args (i + 1) rest (fst acc) (snd acc) w1)
          as [w2 o]. cbn [snd] in E |- *. subst o. exact IH.
    + cbn. exact Hb.
Qed.

End TrainingFacts.

(** C1: update cadence of [train].  With non-zero [num_gen_updates] and
    [save_every], the loop runs over all the batches; the generator's
    optimizer applies gradients in every iteration 0, 1, ..., and the
    discriminator's optimizer applies gradients exactly in the iterations
    whose number is 0 modulo [num_gen_updates], in order.  In every single
    iteration the generator becomes the updated generator, and the
    discriminator becomes the updated discriminator when the iteration
    number is 0 modulo [num_gen_updates] and is left as it was otherwise. *)
Theorem train_update_cadence {B : Backend} (args : Args) (w : world)
    (batches : list image_batch) :
  num_gen_updates args <> 0 ->
  save_every args <> 0 ->
  (exists w' acc evs,
     train_loop args 0 batches (Finite 0) 0 w = (w', Returns acc) /\
     trace w' = trace w ++ evs /\
     gen_updates evs = enumerate_from 0 (List.length batches) /\
     disc_updates evs
     = filter (fun i => i mod num_gen_updates args =? 0)
         (enumerate_from 0 (List.length batches))) /\
  (forall i batch c n w0,
     let w1 := fst (train_body args i batch c n w0) in
     generator w1 = updated_generator args w0 /\
     discriminator w1
     = (if i mod num_gen_updates args =? 0
        then updated_discriminator args batch w0
        else discriminator w0)).
Proof.
  intros Hk Hs. split.
  - destruct (train_loop_run args batches Hk Hs 0 (Finite 0) 0 w)
      as [w' [c' [n' [evs [E [T [G [D _]]]]]]]].
    exists w', (c', n'), evs. auto.
  - intros i batch c n w0.
    destruct (train_body_run args i batch c n w0 Hk Hs) as [w1 [E [G [D _]]]].
    cbv zeta. rewrite E. cbn [fst]. auto.
Qed.

(** Ten batches with the default [num_gen_updates] of 2, on the counting
    backend: the discriminator is updated in iterations 0, 2, 4, 6, 8. *)
Lemma train_update_cadence_witness :
  exists w' acc evs,
    train_loop default_args 0 (repeat [] 10) (Finite 0) 0 (boot first_run)
    = (w', Returns acc) /\
    trace w' = trace (boot first_run) ++ evs /\
    gen_updates evs = [0; 1; 2; 3; 4; 5; 6; 7; 8; 9] /\
    disc_updates evs = [0; 2; 4; 6; 8].
Proof.
  exact (proj1 (@train_update_cadence counting_backend default_args
                  (boot first_run) (repeat [] 10)
                  ltac:(discriminate) ltac:(discriminate))).
Defined.

(** C3: an epoch of three batches.  With non-zero [num_gen_updates] and
    [save_every], [train] on a source of exactly three batches performs the
    iterations 0, 1 and 2, then returns; the only evaluation is the one of
    iteration 0, the count it divides by is 1, and when that evaluation
    gave the finite score q, the mean it returns is finite and equal to
    q. *)
Theorem train_three_batches {B : Backend} (args : Args) (w : world)
    (b0 b1 b2 : image_batch) (q : Q) :
  num_gen_updates args <> 0 ->
  save_every args <> 0 ->
  next_fid args b0 w = Finite q ->
  exists w' m evs,
    train args [b0; b1; b2] w = (w', Returns m) /\
    is_finite m /\
    (exists q', m = Finite q' /\ (q' == q)%Q) /\
    trace w' = trace w ++ evs /\
    gen_updates evs = [0; 1; 2] /\
    fid_evaluations evs = [0].
Proof.
  intros Hk Hs Hq.
  destruct (train_body_run args 0 b0 (Finite 0) 0 w Hk Hs)
    as [w1 [E1 _]].
  change (0 mod 500 =? 0) with true in E1. cbv iota in E1.
  destruct (train_body_run args 1 b1
              (tf_add (Finite 0) (next_fid args b0 w)) (0 + 1) w1 Hk Hs)
    as [w2 [E2 _]].
  change (1 mod 500 =? 0) with false in E2. cbv iota in E2.
  destruct (train_body_run args 2 b2
              (tf_add (Finite 0) (next_fid args b0 w)) (0 + 1) w2 Hk Hs)
    as [w3 [E3 _]].
  change (2 mod 500 =? 0) with false in E3. cbv iota in E3.
  destruct (train_loop_run args [b0; b1; b2] Hk Hs 0 (Finite 0) 0 w)
    as [w' [c' [n' [evs [E [T [G [_ [F _]]]]]]]]].
  assert (Eloop : train_loop args 0 [b0; b1; b2] (Finite 0) 0 w
                  = (w3, Returns (tf_add (Finite 0) (next_fid args b0 w), 0 + 1))).
  { cbn [train_loop]. unfold bind. rewrite E1. cbn [fst snd].
    change (0 + 1) with 1 in *. rewrite E2. cbn [fst snd].
    change (1 + 1) with 2. rewrite E3. reflexivity. }
  rewrite Eloop in E. injection E as <- <- <-.
  exists w3, (tf_div_int (tf_add (Finite 0) (next_fid args b0 w)) 1), evs.
  rewrite Hq. cbn [tf_add tf_div_int].
  split; [|split; [|split; [|split; [|split]]]].
  - unfold train, bind. rewrite Eloop, Hq. reflexivity.
  - exact I.
  - eexists. split; [reflexivity|].
    change (inject_Z (0 + 1)) with 1%Q. field.
  - exact T.
  - exact G.
  - exact F.
Qed.

(** Three batches on the counting backend with the default arguments: the
    score of iteration 0 is 1, and so is the mean. *)
Lemma train_three_batches_witness :
  exists w' m evs,
    train default_args [[]; []; []] (boot first_run) = (w', Returns m) /\
    is_finite m /\
    (exists q', m = Finite q' /\ (q' == 1)%Q) /\
    trace w' = trace (boot first_run) ++ evs /\
    gen_updates evs = [0; 1; 2] /\
    fid_evaluations evs = [0].
Proof.
  apply (@train_three_batches counting_backend default_args
           (boot first_run) [] [] [] 1%Q).
  - discriminate.
  - discriminate.
  - reflexivity.
Defined.

(** C9: the evaluation of iteration 0.  [train] stops at the final
    division [cumulative/eval_count] with a zero count exactly when the
    data source is empty, whatever the configuration.  On a source with at
    least one batch (and non-zero [num_gen_updates] and [save_every], so
    that iteration 0 gets that far) the Inception distance is evaluated in
    iteration 0, the count is at least 1 when the loop ends, and [train]
    returns the quotient. *)
Theorem train_mean_division {B : Backend} (args : Args) (w : world)
    (batches : list image_batch) :
  (snd (train args batches w) = Raises (ZeroDivisionError at_mean)
   <-> batches = []) /\
  (batches <> [] ->
   num_gen_updates args <> 0 ->
   save_every args <> 0 ->
   exists w' c n evs,
     train_loop args 0 batches (Finite 0) 0 w = (w', Returns (c, n)) /\
     trace w' = trace w ++ evs /\
     In (FidEvaluated 0) evs /\
     1 <= n /\
     train args batches w = (w', Returns (tf_div_int c n))).
Proof.
  split.
  - pose proof (train_loop_outcome args batches 0 (Finite 0) 0 w) as Ho.
    unfold train, bind.
    destruct (train_loop args 0 batches (Finite 0) 0 w) as [w' [acc|e]] eqn:E;
      cbn [snd] in Ho.
    + destruct batches as [|b rest].
      * cbn in E. injection E as <- <-. cbn. split; [reflexivity|].
        intros _. reflexivity.
      * destruct Ho as [_ Ho]. specialize (Ho ltac:(discriminate) eq_refl).
        replace (snd acc =? 0) with false
          by (symmetry; apply Z.eqb_neq; lia).
        cbn. split; [discriminate | discriminate].
    + cbn [snd]. split.
      * intros H. injection H as ->. contradiction.
      * intros ->. cbn in E. discriminate.
  - intros Hne Hk Hs.
    destruct (train_loop_run args batches Hk Hs 0 (Finite 0) 0 w)
      as [w' [c' [n' [evs [E [T [_ [_ [F N]]]]]]]]].
    destruct batches as [|b rest]; [congruence|].
    cbn [List.length enumerate_from filter] in F.
    change (0 mod 500 =? 0) with true in F. cbv iota in F.
    exists w', c', n', evs.
    split; [exact E|]. split; [exact T|].
    assert (Hin : In 0 (fid_evaluations evs)) by (rewrite F; left; reflexivity).
    split.
    { unfold fid_evaluations in Hin. apply in_flat_map in Hin.
      destruct Hin as [e [He Hi]].
      destruct e; cbn in Hi; try contradiction.
      destruct Hi as [-> | []]. exact He. }
    assert (Hn : 1 <= n').
    { rewrite N, F. cbn [List.length]. lia. }
    split; [exact Hn|].
    unfold train, bind. rewrite E. cbn [fst snd].
    replace (n' =? 0) with false by (symmetry; apply Z.eqb_neq; lia).
    reflexivity.
Qed.

(** One batch and no batch on the counting backend. *)
Lemma train_mean_division_witness :
  snd (train default_args [] (boot first_run))
  = Raises (ZeroDivisionError at_mean) /\
  exists w' c n evs,
    train_loop default_args 0 [[]] (Finite 0) 0 (boot first_run)
    = (w', Returns (c, n)) /\
    trace w' = trace (boot first_run) ++ evs /\
    In (FidEvaluated 0) evs /\
    1 <= n /\
    train default_args [[]] (boot first_run) = (w', Returns (tf_div_int c n)).
Proof.
  split.
  - apply (proj1 (@train_mean_division counting_backend default_args
                    (boot first_run) [])).
    reflexivity.
  - apply (proj2 (@train_mean_division counting_backend default_args
                    (boot first_run) [[]])); discriminate.
Defined.

(** ** The restore of [main] *)

Create HintDb restore_free.

Section MainFacts.
Context {B : Backend}.

Lemma restore_free_ret {A} (a : A) : restore_free (ret a).
Proof.
  intros w. exists []. cbn. rewrite app_nil_r. auto.
Qed.

Lemma restore_free_raise {A} (e : exn) : restore_free (raise (A := A) e).
Proof.
  intros w. exists []. cbn. rewrite app_nil_r. auto.
Qed.

Lemma restore_free_bind {A C} (m : M A) (k : A -> M C) :
  restore_free m -> (forall a, restore_free (k a)) -> restore_free (bind m k).
Proof.
  intros Hm Hk w. unfold bind.
  destruct (Hm w) as [evs1 [T1 F1]].
  destruct (m w) as [w1 [a|e]]; cbn [fst] in T1.
  - destruct (Hk a w1) as [evs2 [T2 F2]].
    exists (evs1 ++ evs2). rewrite T2, T1, app_assoc.
    split; [reflexivity|]. apply Forall_app. auto.
  - exists evs1. auto.
Qed.

Lemma restore_free_emit (e : event) :
  is_restore e = false -> restore_free (emit e).
Proof.
  intros He w. exists [e]. cbn. auto.
Qed.

Lemma restore_free_silent {A} (m : M A) :
  (forall w, trace (fst (m w)) = trace w) -> restore_free m.
Proof.
  intros H w. exists []. rewrite H, app_nil_r. auto.
Qed.

Lemma restore_free_draw_noise (args : Args) : restore_free (draw_noise args).
Proof.
  apply restore_free_silent. intros w. unfold draw_noise.
  destruct (random_uniform (batch_size args) (z_dim args) (rng w)).
  reflexivity.
Qed.

Lemma restore_free_py_mod (a b : Z) (site : division_site) :
  restore_free (py_mod a b site).
Proof.
  unfold py_mod. destruct (b =? 0).
  - apply restore_free_raise.
  - apply restore_free_ret.
Qed.

Lemma restore_free_manager_save : restore_free manager_save.
Proof.
  intros w. eexists. cbn. split; [reflexivity|]. auto.
Qed.

Lemma restore_free_for_each {A} (l : list A) (body : A -> M unit) :
  (forall x, restore_free (body x)) -> restore_free (for_each l body).
Proof.
  intros Hb. induction l as [|x rest IH]; cbn [for_each].
  - apply restore_free_ret.
  - apply restore_free_bind; auto.
Qed.

#[local] Hint Resolve restore_free_ret restore_free_raise restore_free_draw_noise
  restore_free_py_mod restore_free_manager_save : restore_free.

Lemma restore_free_train_body (args : Args) (i : Z) (batch : image_batch)
    (c : tfloat) (n : Z) :
  restore_free (train_body args i batch c n).
Proof.
  unfold train_body.
  repeat first
    [ apply restore_free_bind; [|intros ?]
    | apply restore_free_emit; reflexivity
    | apply restore_free_silent; intros ?; reflexivity
    | solve [auto with restore_free]
    | match goal with |- restore_free (if ?b then _ else _) => destruct b end ].
Qed.

Lemma restore_free_train_loop (args : Args) (batches : list image_batch) :
  forall i c n, restore_free (train_loop args i batches c n).
Proof.
  induction batches as [|b rest IH]; intros i c n; cbn [train_loop].
  - apply restore_free_ret.
  - apply restore_free_bind; [apply restore_free_train_body | intros acc; apply IH].
Qed.

Lemma restore_free_train (args : Args) (batches : list image_batch) :
  restore_free (train args batches).
Proof.
  unfold train. apply restore_free_bind; [apply restore_free_train_loop|].
  intros acc. destruct (snd acc =? 0); auto with restore_free.
Qed.

Lemma restore_free_test (args : Args) : restore_free (test args).
Proof.
  unfold test.
  apply restore_free_bind; [apply restore_free_draw_noise | intros noise].
  apply restore_free_bind;
    [apply restore_free_silent; intros ?; reflexivity | intros g].
  apply restore_free_bind; [apply restore_free_raise | intros img].
  apply restore_free_for_each. intros i.
  destruct (nth_error _ _).
  - apply restore_free_emit. reflexivity.
  - apply restore_free_raise.
Qed.

Lemma restore_free_try_except (body : M unit) :
  restore_free body -> restore_free (try_except_RuntimeError body).
Proof.
  intros Hb w. destruct (Hb w) as [evs [T F]].
  exists evs. split; [|exact F].
  unfold try_except_RuntimeError.
  destruct (body w) as [w' [[]|[]]]; exact T.
Qed.

Lemma restore_free_enter_device (name : string) :
  restore_free (enter_device name).
Proof.
  unfold enter_device. destruct (tf_device name).
  - apply restore_free_raise.
  - apply restore_free_ret.
Qed.

Lemma restore_free_main_run (args : Args) (ds : Z -> list image_batch) :
  restore_free (main_run args ds).
Proof.
  unfold main_run. apply restore_free_try_except.
  apply restore_free_bind; [apply restore_free_enter_device | intros _].
  apply restore_free_bind.
  - destruct (mode args =? "train")%string; [|apply restore_free_ret].
    apply restore_free_for_each. intros epoch.
    apply restore_free_bind; [apply restore_free_emit; reflexivity | intros _].
    apply restore_free_bind; [apply restore_free_train | intros _].
    apply restore_free_manager_save.
  - intros _. destruct (mode args =? "test")%string.
    + apply restore_free_test.
    + apply restore_free_ret.
Qed.

(** What [main] has done when the [try] block starts. *)
Lemma main_setup_run (args : Args) (s : start) :
  let requested := restore_checkpoint args || (mode args =? "test")%string in
  exists w1,
    main_setup args (boot s) = (w1, Returns tt) /\
    trace w1
    = (if out_dir_present s then [] else [Makedirs (out_dir args)])
      ++ (if requested
          then [CheckpointRestore
                  (match saved s with [] => false | _ => true end)]
          else []) /\
    (saved s = [] ->
     generator w1 = fresh_generator /\ discriminator w1 = fresh_discriminator).
Proof.
  cbv zeta.
  unfold main_setup, main_restore, bind, path_exists, makedirs, ret,
    checkpoint_restore, boot.
  cbn [out_dir_exists].
  unfold CheckpointManager.restore_latest, CheckpointManager.latest_checkpoint.
  destruct (out_dir_present s); cbn [negb];
    destruct (restore_checkpoint args || (mode args =? "test")%string);
    cbn [manager CheckpointManager.checkpoints trace generator discriminator
         rng out_dir_exists];
    try (eexists; split; [reflexivity|]; split; [reflexivity|]; cbn; auto).
  all: destruct (saved s) as [|x l] eqn:Hsaved.
  all: try (cbn; eexists; split; [reflexivity|]; split; [reflexivity|];
            cbn; auto; fail).
  all: assert (Hl : exists y, last (map Some (x :: l)) None = Some y)
         by (clear; revert x; induction l as [|z l IH]; intros x;
             [exists x; reflexivity
             | destruct (IH z) as [y Hy]; exists y;
               cbn [map last] in *; exact Hy]).
  all: destruct Hl as [[id [g d]] Hl]; rewrite Hl; cbn.
  all: eexists; split; [reflexivity|]; split; [reflexivity|]; discriminate.
Qed.

End MainFacts.

(** C8: restore without a checkpoint.  When the restore is requested (by
    the flag or by test mode) and the checkpoint directory is empty, the
    setup of [main] returns normally with both networks as freshly
    constructed; the one restore attempt, which finds nothing, is the last
    thing that happens before the [try] block, preceded at most by the
    creation of the output directory, and nothing that training or
    sampling does afterwards is a restore. *)
Theorem restore_without_checkpoint {B : Backend} (args : Args)
    (dataset_iterator : Z -> list image_batch) (s : start) :
  restore_checkpoint args = true \/ mode args = "test"%string ->
  saved s = [] ->
  exists w1 pre post,
    main_setup args (boot s) = (w1, Returns tt) /\
    generator w1 = fresh_generator /\
    discriminator w1 = fresh_discriminator /\
    main args dataset_iterator s = main_run args dataset_iterator w1 /\
    trace w1 = pre ++ [CheckpointRestore false] /\
    Forall (fun e => is_makedirs e = true) pre /\
    trace (fst (main args dataset_iterator s)) = trace w1 ++ post /\
    Forall (fun e => is_restore e = false) post.
Proof.
  intros Hreq Hsaved.
  assert (Hcond : restore_checkpoint args || (mode args =? "test")%string = true).
  { destruct Hreq as [-> | ->]; [reflexivity|].
    rewrite String.eqb_refl. apply orb_true_r. }
  destruct (main_setup_run args s) as [w1 [E [T F]]].
  rewrite Hcond, Hsaved in T.
  destruct (F Hsaved) as [Hg Hd].
  assert (Em : main args dataset_iterator s = main_run args dataset_iterator w1).
  { unfold main, bind. rewrite E. reflexivity. }
  destruct (restore_free_main_run args dataset_iterator w1) as [post [Tp Fp]].
  exists w1, (if out_dir_present s then [] else [Makedirs (out_dir args)]), post.
  repeat split; try assumption.
  - destruct (out_dir_present s); repeat constructor.
  - rewrite Em. exact Tp.
Qed.

(** Test mode on a first run of the counting backend. *)
Lemma restore_without_checkpoint_witness :
  exists w1 pre post,
    main_setup sampling_args (boot first_run)
    = (w1, Returns tt) /\
    generator w1 = 0 /\
    discriminator w1 = 0 /\
    main sampling_args (fun _ => []) first_run
    = main_run sampling_args (fun _ => []) w1 /\
    trace w1 = pre ++ [CheckpointRestore false] /\
    Forall (fun e => is_makedirs e = true) pre /\
    trace (fst (main sampling_args (fun _ => []) first_run))
    = trace w1 ++ post /\
    Forall (fun e => is_restore e = false) post.
Proof.
  apply (@restore_without_checkpoint counting_backend).
  - right. reflexivity.
  - reflexivity.
Defined.



(** * Further properties of the code *)

(** ** The discriminator network *)

Module DiscriminatorFacts.
Import Discriminator_Network.

Lemma sigmoid_bounds (x : R) : (0 <= activation_fn sigmoid x <= 1)%R.
Proof.
  simpl. pose proof (exp_pos (- x)) as Hp.
  assert (Hd : (0 < 1 + exp (- x))%R) by Lra.lra.
  split.
  - apply Rlt_le. apply Rdiv_lt_0_compat; Lra.lra.
  - apply Rmult_le_reg_r with (1 + exp (- x))%R; [exact Hd|].
    replace (1 / (1 + exp (- x)) * (1 + exp (- x)))%R with 1%R
      by (field; Lra.lra).
    Lra.lra.
Qed.

(** Halving with a stride of 2 rounds up. *)
Lemma conv_length_same_bounds (h a b : Z) :
  2 * a - 1 <= h <= 2 * b ->
  a <= conv_length h 2 5 Generator_Model.same <= b.
Proof.
  intros H. unfold conv_length. split.
  - apply Z.div_le_lower_bound; lia.
  - apply Z.lt_succ_r. apply Z.div_lt_upper_bound; lia.
Qed.

(** Four halvings take every length from 49 to 64 to 4. *)
Lemma four_halvings (h : Z) :
  49 <= h <= 64 ->
  conv_length
    (conv_length
       (conv_length (conv_length h 2 5 Generator_Model.same) 2 5
          Generator_Model.same) 2 5 Generator_Model.same) 2 5
    Generator_Model.same = 4.
Proof.
  intros H.
  set (h1 := conv_length h 2 5 Generator_Model.same).
  assert (H1 : 25 <= h1 <= 32)
    by (apply conv_length_same_bounds; lia).
  set (h2 := conv_length h1 2 5 Generator_Model.same).
  assert (H2 : 13 <= h2 <= 16)
    by (apply conv_length_same_bounds; lia).
  set (h3 := conv_length h2 2 5 Generator_Model.same).
  assert (H3 : 7 <= h3 <= 8)
    by (apply conv_length_same_bounds; lia).
  assert (H4 : 4 <= conv_length h3 2 5 Generator_Model.same <= 4)
    by (apply conv_length_same_bounds; lia).
  lia.
Qed.

Lemma ltb_pos (u : Z) : 0 < u -> (0 <? u) = true.
Proof. intros H. apply Z.ltb_lt. exact H. Qed.

Section Layers.
Variable learned : nat -> list R -> nat -> R.

(** One layer of a built model on an input that its weights accept. *)
Lemma sequential_step (i : nat) (l : layer) (rest : list layer)
    (built built' : list Z) (t t' : Generator_Model.tensor) :
  compatible l built (Generator_Model.shape t) = true ->
  layer_call learned i l t = Some t' ->
  output_shape l built = Some built' ->
  sequential learned i (l :: rest) built t
  = sequential learned (S i) rest built' t'.
Proof.
  intros Hc Hl Hb. cbn [sequential]. rewrite Hc, Hl, Hb. reflexivity.
Qed.

End Layers.

End DiscriminatorFacts.

(** One layer of the discriminator on a tensor whose shape is known. *)
Ltac discriminator_layer :=
  erewrite DiscriminatorFacts.sequential_step;
  [ | cbn [Discriminator_Network.compatible last Generator_Model.shape];
      rewrite ?DiscriminatorFacts.four_halvings by lia;
      first [apply Z.eqb_refl | reflexivity]
    | unfold Discriminator_Network.layer_call;
      cbn [Discriminator_Network.output_shape Generator_Model.shape
           Generator_Model.values];
      rewrite ?DiscriminatorFacts.ltb_pos by lia; reflexivity
    | cbn [Discriminator_Network.output_shape];
      rewrite ?DiscriminatorFacts.ltb_pos by lia; reflexivity ].

(** X1: the discriminator's forward pass.  For every batch size and
    positive width multiplier, [call] on a tensor of shape [[B, h, w, 3]]
    with h and w between 49 and 64 (64x64 in particular) returns a tensor
    of shape [[B, 1]] holding B scores, one per image, and every score lies
    in [[0, 1]], being a sigmoid.  The four strided convolutions with their
    normalisations and activations take the image to a 4x4 map with
    [512 * scale_model] channels, which is what the dense layer was built
    for.  An input with another number of channels than 3 is rejected.
    This holds whatever the weights compute. *)
Theorem discriminator_call_shape_and_range
    (learned : nat -> list R -> nat -> R)
    (args : Args) (inputs : Generator_Model.tensor) (B h w : Z) :
  0 < scale_model args ->
  Generator_Model.shape inputs = [B; h; w; 3] ->
  49 <= h <= 64 ->
  49 <= w <= 64 ->
  (exists out,
     Discriminator_Network.call learned args inputs = Some out /\
     Generator_Model.shape out = [B; 1] /\
     List.length (Generator_Model.values out) = Z.to_nat B /\
     Forall (fun v => (0 <= v <= 1)%R) (Generator_Model.values out)) /\
  (exists features,
     Discriminator_Network.sequential learned 0
       (firstn 11 (Discriminator_Network.model (scale_model args)))
       Discriminator_Network.built_input inputs
     = Some features /\
     Generator_Model.shape features = [B; 4; 4; 512 * scale_model args]) /\
  (forall (t : Generator_Model.tensor) (b h' w' c : Z),
     Generator_Model.shape t = [b; h'; w'; c] ->
     c <> 3 ->
     Discriminator_Network.call learned args t = None).
Proof.
  intros Hs Hshape Hh Hw.
  destruct inputs as [sh v]. simpl in Hshape. subst sh.
  set (s := scale_model args) in *.
  split; [|split].
  - unfold Discriminator_Network.call, Discriminator_Network.built_input.
    fold s. unfold Discriminator_Network.model.
    do 13 discriminator_layer.
    cbn [Discriminator_Network.sequential].
    eexists. split; [reflexivity | split; [|split]].
    + reflexivity.
    + cbn [Generator_Model.values Discriminator_Network.layer_values].
      rewrite length_map, GeneratorFacts.positions_length.
      f_equal. unfold Generator_Model.product. cbn [fold_right]. lia.
    + cbn [Generator_Model.values Discriminator_Network.layer_values].
      apply Forall_forall. intros y Hy.
      apply in_map_iff in Hy. destruct Hy as [j [<- _]].
      apply DiscriminatorFacts.sigmoid_bounds.
  - unfold Discriminator_Network.built_input, Discriminator_Network.model.
    cbn [firstn].
    do 11 discriminator_layer.
    cbn [Discriminator_Network.sequential].
    eexists. split; [reflexivity|].
    cbn [Generator_Model.shape].
    rewrite !DiscriminatorFacts.four_halvings by lia. reflexivity.
  - intros t b h' w' c Ht Hc.
    unfold Discriminator_Network.call, Discriminator_Network.model,
      Discriminator_Network.built_input.
    cbn [Discriminator_Network.sequential]. rewrite Ht.
    cbn [Discriminator_Network.compatible last].
    apply Z.eqb_neq in Hc. rewrite Hc. reflexivity.
Qed.

(** The default configuration on a batch of two images of 63x63 pixels:
    two scores come out. *)
Lemma discriminator_call_shape_and_range_witness :
  (exists out,
     Discriminator_Network.call (fun _ x j => nth j x 0%R) default_args
       {| Generator_Model.shape := [2; 63; 63; 3];
          Generator_Model.values := repeat 0%R (Z.to_nat (2 * 63 * 63 * 3)) |} = Some out /\
     Generator_Model.shape out = [2; 1] /\
     List.length (Generator_Model.values out) = Z.to_nat 2 /\
     Forall (fun v => (0 <= v <= 1)%R) (Generator_Model.values out)) /\
  (exists features,
     Discriminator_Network.sequential (fun _ x j => nth j x 0%R) 0
       (firstn 11 (Discriminator_Network.model (scale_model default_args)))
       Discriminator_Network.built_input
       {| Generator_Model.shape := [2; 63; 63; 3];
          Generator_Model.values := repeat 0%R (Z.to_nat (2 * 63 * 63 * 3)) |}
     = Some features /\
     Generator_Model.shape features = [2; 4; 4; 512 * scale_model default_args]) /\
  (forall (t : Generator_Model.tensor) (b h' w' c : Z),
     Generator_Model.shape t = [b; h'; w'; c] ->
     c <> 3 ->
     Discriminator_Network.call (fun _ x j => nth j x 0%R) default_args t
     = None).
Proof.
  apply (@discriminator_call_shape_and_range (fun _ x j => nth j x 0%R)
           default_args
           {| Generator_Model.shape := [2; 63; 63; 3];
              Generator_Model.values := repeat 0%R (Z.to_nat (2 * 63 * 63 * 3)) |} 2 63 63).
  - simpl. lia.
  - reflexivity.
  - lia.
  - lia.
Defined.

(** ** Counting the iterations that do something *)

Section Counting.

Lemma ceil_div_succ (a k : Z) :
  0 < k ->
  ceil_div (a + 1) k = ceil_div a k + (if a mod k =? 0 then 1 else 0).
Proof.
  intros Hk. unfold ceil_div.
  pose proof (Z.div_mod a k ltac:(lia)) as Hdm.
  pose proof (Z.mod_pos_bound a k Hk) as Hb.
  replace (a + 1 + k - 1) with (a + k) by lia.
  assert (E1 : (a + k) / k = a / k + 1).
  { symmetry. apply Z.div_unique with (a mod k); lia. }
  rewrite E1.
  destruct (a mod k =? 0) eqn:Hm.
  - apply Z.eqb_eq in Hm.
    assert (E2 : (a + k - 1) / k = a / k).
    { symmetry. apply Z.div_unique with (k - 1); lia. }
    lia.
  - apply Z.eqb_neq in Hm.
    assert (E2 : (a + k - 1) / k = a / k + 1).
    { symmetry. apply Z.div_unique with (a mod k - 1); lia. }
    lia.
Qed.

(** The multiples of a positive [k] among [n] consecutive numbers. *)
Lemma count_multiples (k : Z) (n : nat) :
  0 < k ->
  forall a,
    Z.of_nat (List.length (filter (fun j => j mod k =? 0) (enumerate_from a n)))
    = ceil_div (a + Z.of_nat n) k - ceil_div a k.
Proof.
  intros Hk. induction n as [|n IH]; intros a.
  - cbn. replace (a + 0) with a by lia. lia.
  - cbn [enumerate_from filter].
    pose proof (ceil_div_succ a Hk) as Hs.
    replace (a + Z.of_nat (S n)) with (a + 1 + Z.of_nat n) by lia.
    destruct (a mod k =? 0); cbn [List.length].
    + rewrite Nat2Z.inj_succ, IH. lia.
    + rewrite IH. lia.
Qed.

Lemma enumerate_from_length (a : Z) (n : nat) :
  List.length (enumerate_from a n) = n.
Proof.
  revert a. induction n as [|n IH]; intros a; cbn; [reflexivity|].
  rewrite IH. reflexivity.
Qed.

Lemma ceil_div_zero (k : Z) : 0 < k -> ceil_div 0 k = 0.
Proof.
  intros Hk. unfold ceil_div. apply Z.div_small. lia.
Qed.

(** Python's remainder by a negative number is 0 for the same numbers as
    the remainder by its absolute value. *)
Lemma mod_abs_eqb (i k : Z) :
  k <> 0 -> (i mod k =? 0) = (i mod Z.abs k =? 0).
Proof.
  intros Hk.
  destruct (i mod k =? 0) eqn:E1; destruct (i mod Z.abs k =? 0) eqn:E2;
    try reflexivity; exfalso.
  - apply Z.eqb_eq in E1. apply Z.eqb_neq in E2. apply E2.
    apply Z.mod_divide in E1; [|exact Hk].
    apply Z.mod_divide; [lia|]. apply (proj2 (Z.divide_abs_l k i)). exact E1.
  - apply Z.eqb_neq in E1. apply Z.eqb_eq in E2. apply E1.
    apply Z.mod_divide in E2; [|lia].
    apply Z.mod_divide; [exact Hk|]. apply (proj1 (Z.divide_abs_l k i)). exact E2.
Qed.

Lemma count_multiples_abs (k : Z) (n : nat) :
  k <> 0 ->
  Z.of_nat (List.length (filter (fun j => j mod k =? 0) (enumerate_from 0 n)))
  = ceil_div (Z.of_nat n) (Z.abs k).
Proof.
  intros Hk.
  rewrite (filter_ext (fun j => j mod k =? 0)
             (fun j => j mod Z.abs k =? 0))
    by (intros j; apply mod_abs_eqb; exact Hk).
  rewrite count_multiples by lia.
  rewrite ceil_div_zero by lia. cbn. lia.
Qed.

End Counting.

(** ** More on the training loop *)

Section TrainingMore.
Context {B : Backend}.
Variable args : Args.

(** The events of one iteration are events of the training loop, and one
    of them is a save exactly when the remainder by [save_every] is 0. *)
Lemma step_events_saves (i : Z) (w : world) :
  Forall (fun e => is_training e = true) (step_events args i w) /\
  List.length (filter is_save (step_events args i w))
  = (if i mod save_every args =? 0 then 1%nat else 0%nat).
Proof.
  unfold step_events.
  destruct (i mod num_gen_updates args =? 0);
    destruct (i mod save_every args =? 0);
    destruct (i mod 500 =? 0); cbn; split;
    repeat constructor.
Qed.

Lemma train_loop_saves (batches : list image_batch) :
  num_gen_updates args <> 0 ->
  save_every args <> 0 ->
  forall (i : Z) (c : tfloat) (n : Z) (w : world),
  exists w' acc evs,
    train_loop args i batches c n w = (w', Returns acc) /\
    trace w' = trace w ++ evs /\
    Forall (fun e => is_training e = true) evs /\
    List.length (filter is_save evs)
    = List.length (filter (fun j => j mod save_every args =? 0)
                     (enumerate_from i (List.length batches))) /\
    ((forall r f, is_finite (fid_function r f)) ->
     is_finite c -> is_finite (fst acc)).
Proof.
  intros Hk Hs.
  induction batches as [|batch rest IH]; intros i c n w.
  - exists w, (c, n), []. cbn. rewrite app_nil_r.
    repeat split; auto.
  - destruct (train_body_run args i batch c n w Hk Hs) as [w1 [E1 [_ [_ T1]]]].
    cbn [train_loop]. unfold bind at 1. rewrite E1.
    set (acc1 := if i mod 500 =? 0
                 then (tf_add c (next_fid args batch w), n + 1) else (c, n)).
    destruct (IH (i + 1) (fst acc1) (snd acc1) w1)
      as [w' [acc [evs [E [T [F [S Fin]]]]]]].
    destruct (step_events_saves i w) as [F1 S1].
    exists w', acc, (step_events args i w ++ evs).
    split; [exact E|].
    split; [rewrite T, T1, <- app_assoc; reflexivity|].
    split; [apply Forall_app; auto|].
    split.
    + rewrite filter_app, length_app, S, S1.
      cbn [List.length enumerate_from filter].
      destruct (i mod save_every args =? 0); reflexivity.
    + intros Hfid Hc. apply Fin; [exact Hfid|].
      unfold acc1. destruct (i mod 500 =? 0); cbn [fst]; [|exact Hc].
      specialize (Hfid batch (generator_call (generator w) (next_noise args w))).
      unfold next_fid.
      destruct c; [|contradiction].
      destruct (fid_function batch
                  (generator_call (generator w) (next_noise args w)));
        [exact I | contradiction].
Qed.

(** What one iteration does to the checkpoint manager. *)
Lemma train_body_manager (i : Z) (batch : image_batch) (c : tfloat) (n : Z)
    (w : world) :
  num_gen_updates args <> 0 ->
  save_every args <> 0 ->
  let w1 := fst (train_body args i batch c n w) in
  manager w1
  = (if i mod save_every args =? 0
     then CheckpointManager.save (generator w1, discriminator w1) (manager w)
     else manager w).
Proof.
  intros Hk Hs.
  apply Z.eqb_neq in Hk. apply Z.eqb_neq in Hs.
  unfold train_body, bind, draw_noise, get_generator, get_discriminator,
    set_generator, set_discriminator, emit, py_mod, manager_save, ret, raise.
  destruct (random_uniform (batch_size args) (z_dim args) (rng w))
    as [noise r] eqn:Hr.
  rewrite Hk, Hs. cbn [fst snd].
  destruct (i mod num_gen_updates args =? 0);
    destruct (i mod save_every args =? 0);
    destruct (i mod 500 =? 0); reflexivity.
Qed.

End TrainingMore.

(** X2: how many updates an epoch makes.  With non-zero
    [num_gen_updates] and [save_every], an epoch over n batches applies
    gradients to the generator n times and to the discriminator
    n / |[num_gen_updates]| times, rounded up: that many generator updates
    per discriminator update.  A negative [num_gen_updates] acts like its
    absolute value. *)
Theorem train_update_counts {B : Backend} (args : Args) (w : world)
    (batches : list image_batch) :
  num_gen_updates args <> 0 ->
  save_every args <> 0 ->
  exists w' acc evs,
    train_loop args 0 batches (Finite 0) 0 w = (w', Returns acc) /\
    trace w' = trace w ++ evs /\
    List.length (gen_updates evs) = List.length batches /\
    Z.of_nat (List.length (disc_updates evs))
    = ceil_div (Z.of_nat (List.length batches))
        (Z.abs (num_gen_updates args)).
Proof.
  intros Hk Hs.
  destruct (train_loop_run args batches Hk Hs 0 (Finite 0) 0 w)
    as [w' [c' [n' [evs [E [T [G [D _]]]]]]]].
  exists w', (c', n'), evs.
  split; [exact E|]. split; [exact T|]. split.
  - rewrite G. apply enumerate_from_length.
  - rewrite D. apply count_multiples_abs. exact Hk.
Qed.

(** Ten batches with the default ratio of 2: ten generator updates and
    five discriminator updates. *)
Lemma train_update_counts_witness :
  exists w' acc evs,
    train_loop default_args 0 (repeat [] 10) (Finite 0) 0 (boot first_run)
    = (w', Returns acc) /\
    trace w' = trace (boot first_run) ++ evs /\
    List.length (gen_updates evs) = 10%nat /\
    Z.of_nat (List.length (disc_updates evs)) = 5.
Proof.
  apply (@train_update_counts counting_backend default_args
           (boot first_run) (repeat [] 10)).
  - discriminate.
  - discriminate.
Defined.

(** X3: when an epoch saves.  With non-zero [num_gen_updates] and
    [save_every], an epoch over n batches calls [manager.save()]
    n / |[save_every]| times, rounded up, and emits nothing but events of
    the training loop.  In a single iteration the manager is saved exactly
    when the iteration number is 0 modulo [save_every], and what is saved
    is the pair of networks after that iteration's updates. *)
Theorem train_save_cadence {B : Backend} (args : Args) (w : world)
    (batches : list image_batch) :
  num_gen_updates args <> 0 ->
  save_every args <> 0 ->
  (exists w' acc evs,
     train_loop args 0 batches (Finite 0) 0 w = (w', Returns acc) /\
     trace w' = trace w ++ evs /\
     Forall (fun e => is_training e = true) evs /\
     Z.of_nat (List.length (filter is_save evs))
     = ceil_div (Z.of_nat (List.length batches))
         (Z.abs (save_every args))) /\
  (forall i batch c n w0,
     let w1 := fst (train_body args i batch c n w0) in
     manager w1
     = (if i mod save_every args =? 0
        then CheckpointManager.save (generator w1, discriminator w1)
               (manager w0)
        else manager w0)).
Proof.
  intros Hk Hs. split.
  - destruct (train_loop_saves args batches Hk Hs 0 (Finite 0) 0 w)
      as [w' [acc [evs [E [T [F [S _]]]]]]].
    exists w', acc, evs.
    split; [exact E|]. split; [exact T|]. split; [exact F|].
    rewrite S. apply count_multiples_abs. exact Hs.
  - intros i batch c n w0.
    apply train_body_manager; assumption.
Qed.

(** Five batches saving every second iteration: saves in iterations 0, 2
    and 4. *)
Lemma train_save_cadence_witness :
  exists w' acc evs,
    train_loop (with_cadence 2 2) 0 (repeat [] 5) (Finite 0) 0 (boot first_run)
    = (w', Returns acc) /\
    trace w' = trace (boot first_run) ++ evs /\
    Forall (fun e => is_training e = true) evs /\
    Z.of_nat (List.length (filter is_save evs)) = 3.
Proof.
  apply (proj1 (@train_save_cadence counting_backend (with_cadence 2 2)
                  (boot first_run) (repeat [] 5)
                  ltac:(discriminate) ltac:(discriminate))).
Defined.

Section EvaluationMore.
Context {B : Backend}.
Variable args : Args.


End EvaluationMore.



(** X5: a zero [num_gen_updates].  On a non-empty source [train] then
    raises [ZeroDivisionError] at the first remainder of iteration 0: the
    generator has had its update, the discriminator and the checkpoints
    are untouched, and nothing was saved or evaluated. *)
Theorem train_zero_num_gen_updates {B : Backend} (args : Args) (w : world)
    (batch : image_batch) (rest : list image_batch) :
  num_gen_updates args = 0 ->
  exists w',
    train args (batch :: rest) w
    = (w', Raises (ZeroDivisionError at_num_gen_updates)) /\
    generator w' = updated_generator args w /\
    discriminator w' = discriminator w /\
    manager w' = manager w /\
    trace w' = trace w ++ [GenUpdate 0].
Proof.
  intros Hk.
  unfold train, bind. cbn [train_loop].
  unfold bind, train_body, bind, draw_noise, get_generator,
    get_discriminator, set_generator, set_discriminator, emit, py_mod,
    ret, raise, updated_generator, next_noise.
  destruct (random_uniform (batch_size args) (z_dim args) (rng w))
    as [noise r] eqn:Hr.
  rewrite Hk. cbn.
  eexists. split; [reflexivity|]. cbn. auto.
Qed.

Lemma train_zero_num_gen_updates_witness :
  exists w',
    train (with_cadence 0 500) [[]; []] (boot first_run)
    = (w', Raises (ZeroDivisionError at_num_gen_updates)) /\
    generator w' = 1 /\
    discriminator w' = 0 /\
    manager w' = manager (boot first_run) /\
    trace w' = [GenUpdate 0].
Proof.
  apply (@train_zero_num_gen_updates counting_backend (with_cadence 0 500)
           (boot first_run) [] [[]]).
  reflexivity.
Defined.

(** X6: a zero [save_every].  With a non-zero [num_gen_updates], [train]
    on a non-empty source raises [ZeroDivisionError] at the second
    remainder of iteration 0: both networks have had their update of that
    iteration, and nothing was saved or evaluated. *)
Theorem train_zero_save_every {B : Backend} (args : Args) (w : world)
    (batch : image_batch) (rest : list image_batch) :
  num_gen_updates args <> 0 ->
  save_every args = 0 ->
  exists w',
    train args (batch :: rest) w
    = (w', Raises (ZeroDivisionError at_save_every)) /\
    generator w' = updated_generator args w /\
    discriminator w' = updated_discriminator args batch w /\
    manager w' = manager w /\
    trace w' = trace w ++ [GenUpdate 0; DiscUpdate 0].
Proof.
  intros Hk Hs. apply Z.eqb_neq in Hk.
  unfold train, bind. cbn [train_loop].
  unfold bind, train_body, bind, draw_noise, get_generator,
    get_discriminator, set_generator, set_discriminator, emit, py_mod,
    ret, raise, updated_generator, updated_discriminator, next_noise.
  destruct (random_uniform (batch_size args) (z_dim args) (rng w))
    as [noise r] eqn:Hr.
  rewrite Hk, Hs. cbn [fst snd].
  rewrite Z.mod_0_l by (apply Z.eqb_neq; exact Hk).
  cbn.
  eexists. split; [reflexivity|]. cbn.
  rewrite <- app_assoc. auto.
Qed.

Lemma train_zero_save_every_witness :
  exists w',
    train (with_cadence 2 0) [[]; []] (boot first_run)
    = (w', Raises (ZeroDivisionError at_save_every)) /\
    generator w' = 1 /\
    discriminator w' = 1 /\
    manager w' = manager (boot first_run) /\
    trace w' = [GenUpdate 0; DiscUpdate 0].
Proof.
  apply (@train_zero_save_every counting_backend (with_cadence 2 0)
           (boot first_run) [] [[]]).
  - discriminate.
  - reflexivity.
Defined.

(** ** More on the rescaling and the stable logarithm *)

(** X8: the rescaling of [test] is the map x -> 127.5 x - 127.5, and a
    pixel lies in [[-1, 1]] exactly when its rescaled value lies in
    [[-255, 0]]. *)
Theorem rescale_affine (x : Q) :
  (rescale x == (255 # 2) * x - (255 # 2))%Q /\
  ((-1 <= x <= 1)%Q <-> (-255 <= rescale x <= 0)%Q).
Proof.
  unfold rescale, Qdiv. change (/ 2)%Q with (1 # 2)%Q.
  split; [ring|].
  split; intros [H1 H2]; split; Lqa.lra.
Qed.

Lemma Qmax_above (p c : Q) : (c <= p)%Q -> Qmax p c = p.
Proof.
  intros H. unfold Qmax, GenericMinMax.gmax.
  destruct (p ?= c)%Q eqn:E; try reflexivity.
  apply Qlt_alt in E. exfalso. apply (Qlt_not_le _ _ E). exact H.
Qed.

Lemma Qmax_below (p c : Q) : (p < c)%Q -> Qmax p c = c.
Proof.
  intros H. unfold Qmax, GenericMinMax.gmax.
  destruct (p ?= c)%Q eqn:E; try reflexivity; exfalso.
  - apply Qeq_alt in E. apply (Qlt_not_eq _ _ H). exact E.
  - apply Qgt_alt in E. apply (Qlt_irrefl p).
    apply Qlt_trans with c; assumption.
Qed.

(** X9: the stable logarithm on safe and on unsafe inputs.  When every
    entry of x is at least [1e-5], [log(x)] is the framework's logarithm of
    x itself; when every entry is below [1e-5], it is the logarithm of a
    tensor of the same length filled with [1e-5].  Either way the
    framework's logarithm is called once. *)
Theorem log_clamps_only_small_entries (math_log : list Q -> list Q)
    (x : list Q) :
  (Forall (fun p => (stable_floor <= p)%Q) x ->
   log math_log x = (math_log x, [tf_math_log x])) /\
  (Forall (fun p => (p < stable_floor)%Q) x ->
   log math_log x
   = (math_log (map (fun _ => stable_floor) x),
      [tf_math_log (map (fun _ => stable_floor) x)])).
Proof.
  unfold log. split; intros H.
  - assert (E : tf_maximum x stable_floor = x).
    { unfold tf_maximum. induction H as [|p l Hp _ IH]; [reflexivity|].
      cbn. rewrite IH, (Qmax_above Hp). reflexivity. }
    rewrite E. reflexivity.
  - assert (E : tf_maximum x stable_floor = map (fun _ => stable_floor) x).
    { unfold tf_maximum. induction H as [|p l Hp _ IH]; [reflexivity|].
      cbn. rewrite IH, (Qmax_below Hp). reflexivity. }
    rewrite E. reflexivity.
Qed.

(** A probability of one half is kept, a probability of zero is raised. *)
Lemma log_clamps_only_small_entries_witness :
  log (fun x => x) [1 # 2]%Q = ([1 # 2]%Q, [tf_math_log [1 # 2]%Q]) /\
  log (fun x => x) [0]%Q = ([stable_floor], [tf_math_log [stable_floor]]).
Proof.
  split.
  - apply (proj1 (@log_clamps_only_small_entries (fun x => x) [1 # 2]%Q)).
    constructor; [|constructor]. unfold stable_floor, Qle. cbn. lia.
  - apply (proj2 (@log_clamps_only_small_entries (fun x => x) [0]%Q)).
    constructor; [|constructor]. reflexivity.
Defined.

(** ** More on sampling and on [main] *)

Section MainMore.
Context {B : Backend}.














(** A body that returns, or raises something else than [RuntimeError],
    goes through the [try] statement unchanged. *)
Lemma try_except_passes (body : M unit) (w w' : world) (o : outcome unit) :
  body w = (w', o) ->
  o <> Raises RuntimeError ->
  try_except_RuntimeError body w = (w', o).
Proof.
  intros E Ho. unfold try_except_RuntimeError. rewrite E.
  destruct o as [[]|[]]; try reflexivity. congruence.
Qed.

(** [test] stops at the conversion: it has drawn the noise and run the
    generator, and has written nothing. *)
Lemma test_run (args : Args) (w : world) :
  exists w',
    test args w = (w', Raises AttributeError) /\
    trace w' = trace w /\
    generator w' = generator w /\
    discriminator w' = discriminator w /\
    manager w' = manager w /\
    out_dir_exists w' = out_dir_exists w.
Proof.
  unfold test, bind, draw_noise, get_generator, tensor_astype_uint8, raise.
  destruct (random_uniform (batch_size args) (z_dim args) (rng w))
    as [noise r].
  eexists. split; [reflexivity|]. cbn. repeat split.
Qed.

End MainMore.


Section MainMore2.
Context {B : Backend}.



(** The setup of [main] from any state. *)
Lemma main_setup_returns (args : Args) (w : world) :
  exists w1,
    main_setup args w = (w1, Returns tt) /\
    manager w1 = manager w /\
    out_dir_exists w1 = true /\
    trace w1
    = trace w
      ++ (if out_dir_exists w then [] else [Makedirs (out_dir args)])
      ++ (if restore_checkpoint args || (mode args =? "test")%string
          then [CheckpointRestore
                  (match CheckpointManager.restore_latest (manager w) with
                   | Some _ => true
                   | None => false
                   end)]
          else []).
Proof.
  unfold main_setup, main_restore, bind, path_exists, makedirs, ret,
    checkpoint_restore.
  destruct (out_dir_exists w) eqn:Hout; cbn [negb];
    destruct (restore_checkpoint args || (mode args =? "test")%string);
    cbn [manager];
    try destruct (CheckpointManager.restore_latest (manager w))
      as [[g d]|];
    eexists; (split; [reflexivity|]); cbn;
    rewrite ?app_nil_r, <- ?app_assoc; auto.
Qed.

(** [main] once the device scope is entered. *)
Lemma main_run_entered (args : Args) (ds : Z -> list image_batch)
    (w : world) :
  tf_device ("/device:" ++ device args)%string = None ->
  main_run args ds w
  = try_except_RuntimeError
      (bind
         (if (mode args =? "train")%string
          then for_each (range (num_epochs args)) (epoch_body args ds)
          else ret tt)
         (fun _ => if (mode args =? "test")%string then test args else ret tt))
      w.
Proof.
  intros Hdev. unfold main_run, try_except_RuntimeError, enter_device.
  rewrite Hdev. reflexivity.
Qed.

(** An epoch over a non-empty source returns and emits training events. *)
Lemma train_returns (args : Args) (batches : list image_batch) (w : world) :
  batches <> [] ->
  num_gen_updates args <> 0 ->
  save_every args <> 0 ->
  exists w' m evs,
    train args batches w = (w', Returns m) /\
    trace w' = trace w ++ evs /\
    Forall (fun e => is_training e = true) evs.
Proof.
  intros Hne Hk Hs.
  destruct (train_loop_saves args batches Hk Hs 0 (Finite 0) 0 w)
    as [w' [acc [evs [E [T [F _]]]]]].
  pose proof (train_loop_outcome args batches 0 (Finite 0) 0 w) as Ho.
  rewrite E in Ho. cbn [snd] in Ho. destruct Ho as [_ Ho].
  specialize (Ho Hne eq_refl).
  exists w', (tf_div_int (fst acc) (snd acc)), evs.
  split; [|split; assumption].
  unfold train, bind. rewrite E.
  replace (snd acc =? 0) with false by (symmetry; apply Z.eqb_neq; lia).
  reflexivity.
Qed.

Lemma epoch_body_returns (args : Args) (ds : Z -> list image_batch)
    (epoch : Z) (w : world) :
  ds epoch <> [] ->
  num_gen_updates args <> 0 ->
  save_every args <> 0 ->
  exists w' during id,
    epoch_body args ds epoch w = (w', Returns tt) /\
    trace w' = trace w ++ EpochStarted epoch :: during ++ [ManagerSave id] /\
    Forall (fun e => is_training e = true) during.
Proof.
  intros Hne Hk Hs. unfold epoch_body, bind at 1, emit at 1.
  match goal with
  | |- context [bind _ _ ?w0] =>
      destruct (@train_returns args (ds epoch) w0 Hne Hk Hs)
        as [w1 [m [evs [E [T F]]]]]
  end.
  unfold bind. rewrite E. unfold manager_save.
  eexists. exists evs. eexists.
  split; [reflexivity|]. cbn [trace] in *. rewrite T.
  split; [|exact F].
  rewrite <- !app_assoc. reflexivity.
Qed.

Lemma epochs_return (args : Args) (ds : Z -> list image_batch)
    (epochs : list Z) :
  (forall e, In e epochs -> ds e <> []) ->
  num_gen_updates args <> 0 ->
  save_every args <> 0 ->
  forall w,
  exists w' evs,
    for_each epochs (epoch_body args ds) w = (w', Returns tt) /\
    trace w' = trace w ++ evs /\
    epoch_blocks epochs evs.
Proof.
  intros Hds Hk Hs.
  induction epochs as [|e later IH]; intros w.
  - exists w, []. cbn. rewrite app_nil_r. auto.
  - cbn [for_each]. unfold bind.
    destruct (@epoch_body_returns args ds e w
                (Hds e (or_introl eq_refl)) Hk Hs)
      as [w1 [during [id [E [T F]]]]].
    rewrite E.
    destruct (IH (fun x Hx => Hds x (or_intror Hx)) w1)
      as [w' [evs [E' [T' Bl]]]].
    exists w', (EpochStarted e :: during ++ ManagerSave id :: evs).
    split; [exact E'|]. split.
    + rewrite T', T. rewrite <- !app_assoc. cbn. rewrite <- app_assoc.
      reflexivity.
    + cbn [epoch_blocks]. exists during, id, evs. auto.
Qed.

Lemma for_each_app {A} (l1 l2 : list A) (body : A -> M unit) (w : world) :
  for_each (l1 ++ l2) body w
  = bind (for_each l1 body) (fun _ => for_each l2 body) w.
Proof.
  revert w. induction l1 as [|x rest IH]; intros w.
  - reflexivity.
  - cbn [app for_each]. unfold bind in *.
    destruct (body x w) as [w1 [[]|e]]; [apply IH | reflexivity].
Qed.

Lemma range_split (n e : Z) :
  0 <= e < n ->
  exists later, range n = range e ++ e :: later.
Proof.
  intros He. unfold range.
  replace (Z.to_nat n) with (Z.to_nat e + S (Z.to_nat n - Z.to_nat e - 1))%nat
    by lia.
  rewrite seq_app, map_app. cbn [seq map Nat.add].
  rewrite Z2Nat.id by lia.
  eexists. reflexivity.
Qed.

Lemma range_bounds (n i : Z) : In i (range n) -> 0 <= i < n.
Proof.
  unfold range. intros H. apply in_map_iff in H.
  destruct H as [j [<- Hj]]. apply in_seq in Hj. lia.
Qed.

(** In mode ["test"] the [try] statement adds nothing to the trace and
    changes neither the networks nor the manager. *)
Lemma main_run_test_mode (args : Args) (ds : Z -> list image_batch)
    (w : world) :
  mode args = "test"%string ->
  trace (fst (main_run args ds w)) = trace w /\
  generator (fst (main_run args ds w)) = generator w /\
  discriminator (fst (main_run args ds w)) = discriminator w /\
  manager (fst (main_run args ds w)) = manager w.
Proof.
  intros Hmode.
  unfold main_run, try_except_RuntimeError, enter_device.
  rewrite Hmode. cbn [String.eqb Ascii.eqb Bool.eqb].
  destruct (tf_device ("/device:" ++ device args)%string) as [e|].
  - unfold bind, raise. destruct e; cbn; repeat split.
  - unfold bind, ret.
    destruct (test_run args w) as [w' [E [T [G [D [Mg _]]]]]].
    rewrite E. cbn. repeat split; assumption.
Qed.

End MainMore2.

(** X7: sampling stops at the conversion.  With a non-negative
    [batch_size] and [z_dim], [test] draws the noise, runs the generator,
    rescales, and then raises [AttributeError] at [img.astype]: the rescaled
    images are a tensor, which has no such method.  It hands no image to
    [imwrite] and leaves both networks and the checkpoints as they were.
    Hence in mode ["test"], once the device scope is entered, [main] ends
    with that [AttributeError], which [except RuntimeError] does not catch,
    having done nothing after the setup and written no image. *)
Theorem test_raises_at_astype {B : Backend} (args : Args)
    (dataset_iterator : Z -> list image_batch) (s : start) :
  0 <= batch_size args ->
  0 <= z_dim args ->
  (forall w,
     exists w',
       test args w = (w', Raises AttributeError) /\
       trace w' = trace w /\
       generator w' = generator w /\
       discriminator w' = discriminator w /\
       manager w' = manager w) /\
  (mode args = "test"%string ->
   tf_device ("/device:" ++ device args)%string = None ->
   exists w1 w',
     main_setup args (boot s) = (w1, Returns tt) /\
     main args dataset_iterator s = (w', Raises AttributeError) /\
     trace w' = trace w1 /\
     imwrites (trace w') = []).
Proof.
  intros _ _. split.
  - intros w. destruct (test_run args w) as [w' [E [T [G [D [Mg _]]]]]].
    exists w'. auto.
  - intros Hmode Hdev.
    destruct (main_setup_returns args (boot s)) as [w1 [E [_ [_ T]]]].
    destruct (test_run args w1) as [w' [Et [Tt _]]].
    exists w1, w'. split; [exact E|].
    assert (Em : main args dataset_iterator s = (w', Raises AttributeError)).
    { unfold main, bind at 1. rewrite E.
      rewrite main_run_entered by exact Hdev.
      apply try_except_passes; [|discriminate].
      rewrite Hmode. cbn [String.eqb Ascii.eqb Bool.eqb].
      unfold bind, ret. exact Et. }
    split; [exact Em|]. split; [exact Tt|].
    rewrite Tt, T. cbn [boot trace app].
    destruct (out_dir_exists (boot s));
      destruct (restore_checkpoint args || (mode args =? "test")%string);
      reflexivity.
Qed.

(** Test mode on a first run of the counting backend. *)
Lemma test_raises_at_astype_witness :
  (forall w,
     exists w',
       test (B := counting_backend) sampling_args w
       = (w', Raises AttributeError) /\
       trace w' = trace w /\
       generator w' = generator w /\
       discriminator w' = discriminator w /\
       manager w' = manager w) /\
  exists w1 w',
    main_setup sampling_args (boot first_run) = (w1, Returns tt) /\
    main sampling_args (fun _ => []) first_run
    = (w', Raises AttributeError) /\
    trace w' = trace w1 /\
    imwrites (trace w') = [].
Proof.
  destruct (@test_raises_at_astype counting_backend sampling_args
              (fun _ => []) first_run ltac:(discriminate) ltac:(discriminate))
    as [H1 H2].
  split; [exact H1|].
  apply H2; reflexivity.
Defined.

(** X10: test mode trains nothing.  In mode ["test"], after the setup
    [main] only writes image files: the checkpoint manager is the one it
    constructed, with the checkpoints found at the start, and both
    networks are as the setup left them. *)
Theorem main_test_mode_only_samples {B : Backend} (args : Args)
    (dataset_iterator : Z -> list image_batch) (s : start) :
  mode args = "test"%string ->
  exists w1 post,
    main_setup args (boot s) = (w1, Returns tt) /\
    trace (fst (main args dataset_iterator s)) = trace w1 ++ post /\
    Forall (fun e => is_imwrite e = true) post /\
    manager (fst (main args dataset_iterator s)) = manager (boot s) /\
    generator (fst (main args dataset_iterator s)) = generator w1 /\
    discriminator (fst (main args dataset_iterator s)) = discriminator w1.
Proof.
  intros Hmode.
  destruct (main_setup_returns args (boot s)) as [w1 [E [Mg [_ _]]]].
  assert (Em : main args dataset_iterator s = main_run args dataset_iterator w1).
  { unfold main, bind at 1. rewrite E. reflexivity. }
  destruct (main_run_test_mode args dataset_iterator w1 Hmode)
    as [T [G [D Mg']]].
  exists w1, []. rewrite Em.
  split; [exact E|]. split; [rewrite app_nil_r; exact T|].
  split; [constructor|].
  rewrite Mg', G, D. auto.
Qed.

(** Test mode on a first run of the counting backend. *)
Lemma main_test_mode_only_samples_witness :
  exists w1 post,
    main_setup sampling_args (boot first_run) = (w1, Returns tt) /\
    trace (fst (main sampling_args (fun _ => []) first_run))
    = trace w1 ++ post /\
    Forall (fun e => is_imwrite e = true) post /\
    manager (fst (main sampling_args (fun _ => []) first_run))
    = manager (boot first_run) /\
    generator (fst (main sampling_args (fun _ => []) first_run))
    = generator w1 /\
    discriminator (fst (main sampling_args (fun _ => []) first_run))
    = discriminator w1.
Proof.
  apply (@main_test_mode_only_samples counting_backend sampling_args
           (fun _ => []) first_run).
  reflexivity.
Defined.

(** X11: a mode that is neither ["train"] nor ["test"].  The argument
    parser accepts any string; with such a mode, once the device scope is
    entered, [main] has nothing to do in it and returns normally: it trains
    nothing, saves nothing and writes no image, so its trace holds at most
    the creation of the output directory and the restore. *)
Theorem main_other_mode_does_nothing {B : Backend} (args : Args)
    (dataset_iterator : Z -> list image_batch) (s : start) :
  mode args <> "train"%string ->
  mode args <> "test"%string ->
  tf_device ("/device:" ++ device args)%string = None ->
  main args dataset_iterator s = main_setup args (boot s) /\
  snd (main args dataset_iterator s) = Returns tt /\
  manager (fst (main args dataset_iterator s)) = manager (boot s) /\
  Forall (fun e => is_makedirs e || is_restore e = true)
    (trace (fst (main args dataset_iterator s))).
Proof.
  intros Htrain Htest Hdev.
  destruct (main_setup_returns args (boot s)) as [w1 [E [Mg [_ T]]]].
  apply String.eqb_neq in Htrain. apply String.eqb_neq in Htest.
  assert (Em : main args dataset_iterator s = (w1, Returns tt)).
  { unfold main, bind at 1. rewrite E.
    rewrite main_run_entered by exact Hdev.
    rewrite Htrain, Htest. reflexivity. }
  rewrite Em, E. cbn [fst snd].
  split; [reflexivity|]. split; [reflexivity|]. split; [exact Mg|].
  rewrite T. cbn [boot trace app].
  destruct (out_dir_exists (boot s));
    destruct (restore_checkpoint args || (mode args =? "test")%string);
    repeat constructor.
Qed.

(** A misspelt mode on a first run of the counting backend. *)
Lemma main_other_mode_does_nothing_witness :
  main (with_mode "Train") (fun _ => [[]]) first_run
  = main_setup (with_mode "Train") (boot first_run) /\
  snd (main (with_mode "Train") (fun _ => [[]]) first_run) = Returns tt /\
  manager (fst (main (with_mode "Train") (fun _ => [[]]) first_run))
  = manager (boot first_run) /\
  Forall (fun e => is_makedirs e || is_restore e = true)
    (trace (fst (main (with_mode "Train") (fun _ => [[]]) first_run))).
Proof.
  apply (@main_other_mode_does_nothing counting_backend (with_mode "Train")
           (fun _ => [[]]) first_run); [discriminate | discriminate |].
  reflexivity.
Defined.


(** X13: the epochs of a training run.  In mode ["train"], once the device
    scope is entered, with non-zero [num_gen_updates] and [save_every] and
    a data source that yields at least one batch on each of its
    [num_epochs] passes, [main] returns normally, and after the setup its
    trace is one block per epoch 0, 1, ..., [num_epochs] - 1 in order: the
    announcement of the epoch, the events of its training loop, and a save
    at its end.  No image is written. *)
Theorem main_train_mode_epochs {B : Backend} (args : Args)
    (dataset_iterator : Z -> list image_batch) (s : start) :
  mode args = "train"%string ->
  tf_device ("/device:" ++ device args)%string = None ->
  num_gen_updates args <> 0 ->
  save_every args <> 0 ->
  (forall e, 0 <= e < num_epochs args -> dataset_iterator e <> []) ->
  exists w1 w' evs,
    main_setup args (boot s) = (w1, Returns tt) /\
    main args dataset_iterator s = (w', Returns tt) /\
    trace w' = trace w1 ++ evs /\
    epoch_blocks (range (num_epochs args)) evs.
Proof.
  intros Hmode Hdev Hk Hs Hds.
  destruct (main_setup_returns args (boot s)) as [w1 [E _]].
  destruct (@epochs_return B args dataset_iterator (range (num_epochs args))
              (fun e He => Hds e (range_bounds _ _ He)) Hk Hs w1)
    as [w' [evs [Ee [T Bl]]]].
  exists w1, w', evs.
  split; [exact E|]. split; [|split; assumption].
  unfold main, bind at 1. rewrite E.
  rewrite main_run_entered by exact Hdev.
  apply try_except_passes; [|discriminate].
  rewrite Hmode. cbn [String.eqb Ascii.eqb Bool.eqb].
  unfold bind at 1. rewrite Ee. reflexivity.
Qed.

(** Two epochs of one batch each on the counting backend. *)
Lemma main_train_mode_epochs_witness :
  exists w1 w' evs,
    main_setup (with_mode "train") (boot first_run) = (w1, Returns tt) /\
    main (with_mode "train") (fun _ => [[]]) first_run = (w', Returns tt) /\
    trace w' = trace w1 ++ evs /\
    epoch_blocks [0; 1] evs.
Proof.
  apply (@main_train_mode_epochs counting_backend (with_mode "train")
           (fun _ => [[]]) first_run).
  - reflexivity.
  - reflexivity.
  - discriminate.
  - discriminate.
  - intros e _. discriminate.
Defined.

(** X14: a pass of the data source that yields nothing.  In mode
    ["train"], once the device scope is entered, when the passes before
    number [e] yield at least one batch each and pass [e] yields none (as
    every pass after the first does for a source that can be read only
    once), [main] ends with the [ZeroDivisionError] of the mean, which its
    [try] statement does not catch: the epochs before [e] are complete,
    each with its save, epoch [e] is announced, and nothing follows. *)
Theorem main_empty_pass_raises {B : Backend} (args : Args)
    (dataset_iterator : Z -> list image_batch) (s : start) (e : Z) :
  mode args = "train"%string ->
  tf_device ("/device:" ++ device args)%string = None ->
  num_gen_updates args <> 0 ->
  save_every args <> 0 ->
  0 <= e < num_epochs args ->
  (forall e', 0 <= e' < e -> dataset_iterator e' <> []) ->
  dataset_iterator e = [] ->
  exists w1 w' evs,
    main_setup args (boot s) = (w1, Returns tt) /\
    main args dataset_iterator s
    = (w', Raises (ZeroDivisionError at_mean)) /\
    trace w' = trace w1 ++ evs ++ [EpochStarted e] /\
    epoch_blocks (range e) evs.
Proof.
  intros Hmode Hdev Hk Hs He Hds Hempty.
  destruct (main_setup_returns args (boot s)) as [w1 [E _]].
  destruct (range_split He) as [later Hsplit].
  destruct (@epochs_return B args dataset_iterator (range e)
              (fun x Hx => Hds x (range_bounds _ _ Hx)) Hk Hs w1)
    as [w2 [evs [Ee [T Bl]]]].
  assert (Er : exists w',
             for_each (e :: later) (epoch_body args dataset_iterator) w2
             = (w', Raises (ZeroDivisionError at_mean)) /\
             trace w' = trace w2 ++ [EpochStarted e]).
  { cbn [for_each]. unfold bind at 1.
    unfold epoch_body at 1, bind, emit, train. rewrite Hempty.
    cbn. eexists. split; reflexivity. }
  destruct Er as [w' [Er Tr]].
  exists w1, w', evs.
  split; [exact E|]. split; [|split; [|exact Bl]].
  - unfold main, bind at 1. rewrite E.
    rewrite main_run_entered by exact Hdev.
    apply try_except_passes; [|discriminate].
    rewrite Hmode. cbn [String.eqb Ascii.eqb Bool.eqb].
    unfold bind at 1.
    rewrite Hsplit, for_each_app. unfold bind at 1. rewrite Ee, Er.
    reflexivity.
  - rewrite Tr, T, <- app_assoc. reflexivity.
Qed.

(** A source that can be read once: one batch on pass 0, none on pass 1. *)
Lemma main_empty_pass_raises_witness :
  exists w1 w' evs,
    main_setup (with_mode "train") (boot first_run) = (w1, Returns tt) /\
    main (with_mode "train") (fun e => if e =? 0 then [[]] else []) first_run
    = (w', Raises (ZeroDivisionError at_mean)) /\
    trace w' = trace w1 ++ evs ++ [EpochStarted 1] /\
    epoch_blocks [0] evs.
Proof.
  apply (@main_empty_pass_raises counting_backend (with_mode "train")
           (fun e => if e =? 0 then [[]] else []) first_run 1).
  - reflexivity.
  - reflexivity.
  - discriminate.
  - discriminate.
  - cbn. lia.
  - intros e' He'. replace e' with 0 by lia. discriminate.
  - reflexivity.
Defined.

(** X15: a device scope that cannot be entered.  When entering
    [with tf.device(...)] raises, [main] has done its setup and nothing
    else: nothing is trained, saved or sampled.  A [RuntimeError] is caught
    by the [except] clause and [main] returns normally; any other
    exception, such as the [ValueError] of a device name that cannot be
    parsed, ends [main]. *)
Theorem main_device_error {B : Backend} (args : Args)
    (dataset_iterator : Z -> list image_batch) (s : start) (e : exn) :
  tf_device ("/device:" ++ device args)%string = Some e ->
  exists w1,
    main_setup args (boot s) = (w1, Returns tt) /\
    main args dataset_iterator s
    = (w1, match e with
           | RuntimeError => Returns tt
           | _ => Raises e
           end).
Proof.
  intros Hdev.
  destruct (main_setup_returns args (boot s)) as [w1 [E _]].
  exists w1. split; [exact E|].
  unfold main, bind at 1. rewrite E.
  unfold main_run, try_except_RuntimeError, enter_device. rewrite Hdev.
  unfold bind, raise. destruct e; reflexivity.
Qed.

(** The counting backend with a framework that refuses one device name. *)
Lemma main_device_error_witness :
  exists w1,
    main_setup (B := refusing_backend) default_args (boot refused_run)
    = (w1, Returns tt) /\
    main (B := refusing_backend) default_args (fun _ => [[]]) refused_run
    = (w1, Raises ValueError).
Proof.
  apply (@main_device_error refusing_backend default_args
           (fun _ => [[]]) refused_run ValueError).
  reflexivity.
Defined.
